(** * ReadMatrix chat session core

    A shallow embedding of the [useChat] composable in its version with
    conversation restore (src/unnamed/part_002) and of the two page
    handlers that drive its citation state, [handleCitationClick] and
    [handleMessageClick] (src/unnamed/part_001), followed by the properties
    of the streaming conversational session that the design document
    states about them.

    Modelling conventions.
    - A JavaScript string is modelled by the sequence of its UTF-8 bytes
      ([string]); the response body is taken to be valid UTF-8 without a
      byte-order mark.  The newline byte never occurs inside a multi-byte
      sequence, so [TextDecoder.decode(value, {stream: true})] followed by
      [split] on the newline is the same as splitting the bytes, and a
      substring test on the bytes is the substring test on the text; the
      decoder is therefore the identity on chunks.
    - The value returned by [JSON.parse] has type [any] in the source; it is
      modelled by [jsval].  Values that the source casts to an interface
      ([ConversationListResponse]) are modelled by records; the cast is
      not checked, so a body that does not conform is an outcome of its
      own ([HistoryMalformed]), with the throw it causes.
    - What belongs to the JavaScript engine and not to the repository
      ([JSON.parse], [String.prototype.trim], the conversion of a non-string
      value to a string, the text of an engine-raised [TypeError]) is
      collected in the class [JsRuntime].
    - The network is an input: each operation receives the outcome of the
      requests it performs.  An operation runs without another operation
      of the session interleaving at its suspension points. *)

From Stdlib Require Import String Ascii ZArith List Lia DecimalString Floats.
From stdpp Require Import base option list strings.

Local Open Scope string_scope.
Local Open Scope list_scope.

(** String concatenation is unfolded on a constructor, as list append is. *)
#[local] Arguments String.append !s1 s2 : simpl nomatch.

(* ================================================================== *)
(** ** Strings *)

Definition LF : ascii := ascii_of_nat 10.
Definition nl : string := String LF EmptyString.

(** [s.startsWith(p)] *)
Definition startsWith (s p : string) : bool := String.prefix p s.

(** [s.slice(n)] for [n >= 0]. *)
Fixpoint slice (n : nat) (s : string) : string :=
  match n, s with
  | O, _ => s
  | S _, EmptyString => EmptyString
  | S n', String _ s' => slice n' s'
  end.

(** [s.includes(sub)] *)
Fixpoint includes (s sub : string) : bool :=
  String.prefix sub s ||
  match s with
  | EmptyString => false
  | String _ s' => includes s' sub
  end.

(** [s.split("\n")]: never empty, its last element is the text after the
    last newline. *)
Fixpoint split_nl (s : string) : list string :=
  match s with
  | EmptyString => [EmptyString]
  | String c s' =>
      if Ascii.eqb c LF then EmptyString :: split_nl s'
      else match split_nl s' with
           | l :: ls => String c l :: ls
           | [] => [String c EmptyString]
           end
  end.

(** A string used as a condition: the empty string is falsy. *)
Definition nonempty (s : string) : bool :=
  match s with EmptyString => false | String _ _ => true end.

(** Template-literal rendering of an integer status code. *)
Definition string_of_status (n : Z) : string :=
  NilZero.string_of_int (Z.to_int n).

(* ================================================================== *)
(** ** JavaScript values and thrown values *)

#[warnings="-register-all"]
Inductive jsval : Type :=
| JUndefined
| JNull
| JBool (b : bool)
| JNum (f : float)
| JStr (s : string)
| JArr (items : list jsval)
| JObj (props : list (string * jsval)).

(** What a [catch (e)] clause can receive: an [Error] instance with its
    message, or any other value. *)
Inductive Thrown : Type :=
| ThrownError (message : string)
| ThrownValue.

#[global] Instance thrown_bind : MBind (sum Thrown) :=
  λ A B f m, match m with inl t => inl t | inr a => f a end.

(** Truthiness ([Boolean(v)], [!v], [v || d], [if (v)]). *)
Definition truthy (v : jsval) : bool :=
  match v with
  | JUndefined | JNull => false
  | JBool b => b
  | JNum f => negb (PrimFloat.eqb f 0%float || PrimFloat.is_nan f)
  | JStr s => nonempty s
  | JArr _ | JObj _ => true
  end.

Fixpoint assoc (k : string) (props : list (string * jsval)) : jsval :=
  match props with
  | [] => JUndefined
  | (k', v) :: rest => if String.eqb k k' then v else assoc k rest
  end.

Definition isArray (v : jsval) : bool :=
  match v with JArr _ => true | _ => false end.

(** The elements of a value known to be an array. *)
Definition arrayItems (v : jsval) : list jsval :=
  match v with JArr items => items | _ => [] end.

Class JsRuntime : Type := {
  (** [JSON.parse(text)]: the value, or the [SyntaxError] it throws. *)
  JSON_parse : string -> Thrown + jsval;
  (** The string a truthy non-string value contributes to [str + v] and
      to [localStorage.setItem(key, v)]. *)
  ToString : jsval -> string;
  (** [String.prototype.trim]. *)
  String_trim : string -> string;
  (** The message of the [TypeError] raised by reading property [p] of
      [base], which is [null] or [undefined]. *)
  TypeError_message : jsval -> string -> string;
}.

(* ================================================================== *)
(** ** Data model *)

Inductive Role : Type := user | assistant.

(** Citations are the objects received from the server, unvalidated. *)
Definition Citation : Type := jsval.

Record Message : Type := mkMessage {
  msg_id : string;
  role : Role;
  content : string;
  citations : option (list Citation);   (* [citations?] *)
  isClarification : option bool;        (* [isClarification?] *)
}.

Definition setContent (c : string) (m : Message) : Message :=
  mkMessage (msg_id m) (role m) c (citations m) (isClarification m).

(** Item of a [ConversationListResponse]. *)
Record HistoryItem : Type := mkHistoryItem {
  item_id : string;
  item_role : Role;
  item_content : string;
  item_citations : option (list Citation);
  item_is_clarification : option bool;
}.

Record ConversationListResponse : Type := mkConversationList {
  list_conversation_id : string;
  list_messages : list HistoryItem;
}.

(** The refs of [useChat], together with the browser facts the composable
    reads: whether [window] exists and the [localStorage] slot under
    [STORAGE_KEY].  ([filters] only travels in the request body and is
    left out.) *)
Record ChatState : Type := mkChatState {
  messages : list Message;
  input : string;
  isLoading : bool;
  error : option string;
  currentCitations : list Citation;
  selectedCitation : option Citation;
  conversationId : option jsval;
  hasWindow : bool;
  stored : option string;
}.

Definition initialState (win : bool) (slot : option string) : ChatState :=
  mkChatState [] "" false None [] None None win slot.

Definition withMessages (ms : list Message) (s : ChatState) : ChatState :=
  mkChatState ms (input s) (isLoading s) (error s) (currentCitations s)
    (selectedCitation s) (conversationId s) (hasWindow s) (stored s).
Definition withInput (i : string) (s : ChatState) : ChatState :=
  mkChatState (messages s) i (isLoading s) (error s) (currentCitations s)
    (selectedCitation s) (conversationId s) (hasWindow s) (stored s).
Definition withLoading (b : bool) (s : ChatState) : ChatState :=
  mkChatState (messages s) (input s) b (error s) (currentCitations s)
    (selectedCitation s) (conversationId s) (hasWindow s) (stored s).
Definition withError (e : option string) (s : ChatState) : ChatState :=
  mkChatState (messages s) (input s) (isLoading s) e (currentCitations s)
    (selectedCitation s) (conversationId s) (hasWindow s) (stored s).
Definition withCurrentCitations (cs : list Citation) (s : ChatState) : ChatState :=
  mkChatState (messages s) (input s) (isLoading s) (error s) cs
    (selectedCitation s) (conversationId s) (hasWindow s) (stored s).
Definition withSelected (c : option Citation) (s : ChatState) : ChatState :=
  mkChatState (messages s) (input s) (isLoading s) (error s) (currentCitations s)
    c (conversationId s) (hasWindow s) (stored s).
Definition withConversation (c : option jsval) (slot : option string)
    (s : ChatState) : ChatState :=
  mkChatState (messages s) (input s) (isLoading s) (error s) (currentCitations s)
    (selectedCitation s) c (hasWindow s) slot.

(** How a block that may throw ends: normally, or abruptly with the thrown
    value; either way with the state as mutated so far. *)
Inductive Completion (S : Type) : Type :=
| Normal (st : S)
| Abrupt (t : Thrown) (st : S).
Arguments Normal {S} st.
Arguments Abrupt {S} t st.

(** [e instanceof Error ? e.message : fallback] *)
Definition messageOf (fallback : string) (t : Thrown) : string :=
  match t with ThrownError m => m | ThrownValue => fallback end.

(** [response.ok] *)
Definition status_ok (status : Z) : bool :=
  (200 <=? status)%Z && (status <=? 299)%Z.

(** Fixed strings of the source. *)
Definition NO_INFO_MARKER : string := "根据你的笔记，我没有找到相关信息".
Definition FAILURE_TEXT : string := "抱歉，发生了错误。请稍后再试。".

(* ================================================================== *)
(** ** Network outcomes *)

(** [POST /api/conversations]: the fetch rejects, or a response arrives
    with its status and the outcome of [response.json()], of which only
    [conversation_id] is read. *)
Inductive CreateOutcome : Type :=
| CreateRejected (t : Thrown)
| CreateResponse (status : Z) (json : Thrown + jsval).

(** [GET /api/conversations/{id}/messages]: the fetch rejects; or a
    response arrives with its status and the outcome of [response.json()],
    a body that conforms to [ConversationListResponse]; or a response
    arrives whose body parses to [payload], a value that does not conform:
    [payload.messages.map(...)] throws [thrown] (the messages are absent or
    not an array, or hold a null item). *)
Inductive HistoryOutcome : Type :=
| HistoryRejected (t : Thrown)
| HistoryResponse (status : Z) (json : Thrown + ConversationListResponse)
| HistoryMalformed (status : Z) (payload : jsval) (thrown : Thrown).

(** How the reads of a body end: [done], or a rejected read. *)
Inductive ReadEnd : Type :=
| ReadDone
| ReadThrows (t : Thrown).

Record Reader : Type := mkReader {
  chunks : list string;
  ending : ReadEnd;
}.

(** [POST /api/ask]: the fetch rejects, or a response arrives with its
    status and its body ([None] when [response.body] is null). *)
Inductive AskOutcome : Type :=
| AskRejected (t : Thrown)
| AskResponse (status : Z) (body : option Reader).

(* ================================================================== *)
(** ** The stream-decoding loop of [submit]

    The body of [while (true) { ... }] is written once, over the code that
    runs when an event has been decoded ([handle]), so that the loop can be
    run with the dispatcher of [submit] and with a handler that only
    records what is decoded. *)

Section ReadLoop.
Context {S : Type} (handle : string -> string -> S -> Thrown + S).

(** [for (const line of lines) { ... }] *)
Fixpoint for_lines (lines : list string) (currentEvent currentData : string)
    (st : S) : Completion S :=
  match lines with
  | [] => Normal st
  | line :: rest =>
      if startsWith line "event: " then
        for_lines rest (slice 7 line) currentData st
      else if startsWith line "data: " then
        let currentData := slice 6 line in
        if negb (nonempty currentEvent) || negb (nonempty currentData) then
          for_lines rest currentEvent currentData st     (* continue *)
        else
          match handle currentEvent currentData st with
          | inl t => Abrupt t st
          | inr st' => for_lines rest "" "" st'
          end
      else for_lines rest currentEvent currentData st
  end.

(** One iteration per chunk returned by [reader.read()]; the list is
    exhausted when the read reports [done]. *)
Fixpoint read_loop (values : list string) (buffer : string) (st : S)
    : Completion S :=
  match values with
  | [] => Normal st
  | value :: rest =>
      let buffer := buffer +:+ value in
      let lines := split_nl buffer in
      let buffer' := List.last lines "" in            (* lines.pop() || "" *)
      let lines := removelast lines in
      match for_lines lines "" "" st with
      | Normal st' => read_loop rest buffer' st'
      | Abrupt t st' => Abrupt t st'
      end
  end.

Definition read_all (r : Reader) (st : S) : Completion S :=
  match read_loop (chunks r) "" st with
  | Normal st' =>
      match ending r with
      | ReadDone => Normal st'
      | ReadThrows t => Abrupt t st'
      end
  | Abrupt t st' => Abrupt t st'
  end.

(** Handling a sequence of decoded events in order, stopping at the
    first one whose handler throws. *)
Fixpoint run_events (evs : list (string * string)) (st : S) : Completion S :=
  match evs with
  | [] => Normal st
  | (ev, data) :: rest =>
      match handle ev data st with
      | inl t => Abrupt t st
      | inr st' => run_events rest st'
      end
  end.
End ReadLoop.

(** The handler that records each decoded [(eventType, payload)] pair. *)
Definition record_event (ev data : string) (log : list (string * string))
    : Thrown + list (string * string) :=
  inr (log ++ [(ev, data)]).

Definition completed {S : Type} (c : Completion S) : S :=
  match c with Normal st => st | Abrupt _ st => st end.

(** The events the loop of [submit] decodes from a sequence of chunks. *)
Definition decoded_events (values : list string) : list (string * string) :=
  completed (read_loop record_event values "" []).

(** The same decoding written as plain functions on lines and chunks. *)
Fixpoint events_of_lines (lines : list string) (currentEvent : string)
    : list (string * string) :=
  match lines with
  | [] => []
  | line :: rest =>
      if startsWith line "event: " then events_of_lines rest (slice 7 line)
      else if startsWith line "data: " then
        if negb (nonempty currentEvent) || negb (nonempty (slice 6 line)) then
          events_of_lines rest currentEvent
        else (currentEvent, slice 6 line) :: events_of_lines rest ""
      else events_of_lines rest currentEvent
  end.

Fixpoint events_of_chunks (values : list string) (buffer : string)
    : list (string * string) :=
  match values with
  | [] => []
  | value :: rest =>
      let lines := split_nl (buffer +:+ value) in
      events_of_lines (removelast lines) ""
        ++ events_of_chunks rest (List.last lines "")
  end.

(** A well-formed stream is a sequence of frames, each an [event:] line
    followed by its [data:] line and a blank line. *)
Fixpoint no_newline (s : string) : bool :=
  match s with
  | EmptyString => true
  | String c s' => negb (Ascii.eqb c LF) && no_newline s'
  end.

Definition frame_ok (f : string * string) : bool :=
  nonempty (fst f) && no_newline (fst f) &&
  nonempty (snd f) && no_newline (snd f).

Definition render_frame (f : string * string) : string :=
  "event: " +:+ fst f +:+ nl +:+ "data: " +:+ snd f +:+ nl +:+ nl.

(** The three lines of a frame. *)
Definition frame_lines (f : string * string) : list string :=
  ["event: " +:+ fst f; "data: " +:+ snd f; ""].

Fixpoint render_frames (fs : list (string * string)) : string :=
  match fs with
  | [] => ""
  | f :: rest => render_frame f +:+ render_frames rest
  end.

(* ================================================================== *)
(** ** The operations of [useChat] *)

(** Local state of one call of [submit]: the refs and [let isClarification]. *)
Record TurnState : Type := mkTurn {
  chat : ChatState;
  clarification : bool;
}.

Section Session.
Context `{JsRuntime}.

(** [v.p] for the properties the source reads ([conversation_id],
    [needs_clarification], [content], [id]); only an object parsed from
    JSON can own one of them. *)
Definition getProp (v : jsval) (p : string) : Thrown + jsval :=
  match v with
  | JUndefined | JNull => inl (ThrownError (TypeError_message v p))
  | JObj props => inr (assoc p props)
  | _ => inr JUndefined
  end.

(** The string written for [v] by string concatenation and by
    [localStorage.setItem]. *)
Definition asString (v : jsval) : string :=
  match v with JStr s => s | _ => ToString v end.

(** [persistConversationId(id)]: the new content of the storage slot. *)
Definition persistConversationId (id : option jsval) (s : ChatState)
    : option string :=
  if negb (hasWindow s) then stored s
  else match id with
       | None => None
       | Some v => if negb (truthy v) then None else Some (asString v)
       end.

Definition setConversationId (id : option jsval) (s : ChatState) : ChatState :=
  withConversation id (persistConversationId id s) s.

Definition createConversation (c : CreateOutcome) (s : ChatState)
    : Completion ChatState :=
  match c with
  | CreateRejected t => Abrupt t s
  | CreateResponse status json =>
      if negb (status_ok status) then
        Abrupt (ThrownError ("创建会话失败: " +:+ string_of_status status)) s
      else
        match json with
        | inl t => Abrupt t s
        | inr payload =>
            match getProp payload "conversation_id" with
            | inl t => Abrupt t s
            | inr cid =>
                if negb (truthy cid) then
                  Abrupt (ThrownError "创建会话失败: 响应缺少 conversation_id") s
                else Normal (setConversationId (Some cid) s)
            end
        end
  end.

Definition ensureConversation (c : CreateOutcome) (s : ChatState)
    : Completion ChatState :=
  match conversationId s with
  | Some v => if truthy v then Normal s else createConversation c s
  | None => createConversation c s
  end.

Definition toMessage (item : HistoryItem) : Message :=
  mkMessage (item_id item) (item_role item) (item_content item)
    (Some (default [] (item_citations item)))
    (Some (default false (item_is_clarification item))).

Definition citedAssistant (m : Message) : bool :=
  match role m, citations m with
  | assistant, Some (_ :: _) => true
  | _, _ => false
  end.

(** [cs[0] || null] *)
Definition firstOrNull (cs : list Citation) : option Citation :=
  match cs with
  | c :: _ => if truthy c then Some c else None
  | [] => None
  end.

Definition restoreConversationMessages (h : HistoryOutcome) (s : ChatState)
    : ChatState :=
  if negb (hasWindow s) then s
  else match stored s with
  | None => s
  | Some savedConversationId =>
    if negb (nonempty savedConversationId) then s
    else match h with
    | HistoryRejected t => withError (Some (messageOf "恢复会话失败" t)) s
    | HistoryResponse status json =>
      if (status =? 404)%Z then setConversationId None s
      else if negb (status_ok status) then
        withError (Some ("加载历史会话失败: " +:+ string_of_status status)) s
      else match json with
      | inl t => withError (Some (messageOf "恢复会话失败" t)) s
      | inr payload =>
        let s1 := setConversationId (Some (JStr (list_conversation_id payload))) s in
        let s2 := withMessages (map toMessage (list_messages payload)) s1 in
        match List.find citedAssistant (rev (messages s2)) with
        | Some lastAssistant =>
            match citations lastAssistant with
            | Some cs => withSelected (firstOrNull cs) (withCurrentCitations cs s2)
            | None => s2
            end
        | None => s2
        end
      end
    | HistoryMalformed status payload thrown =>
      if (status =? 404)%Z then setConversationId None s
      else if negb (status_ok status) then
        withError (Some ("加载历史会话失败: " +:+ string_of_status status)) s
      else match getProp payload "conversation_id" with
      | inl t => withError (Some (messageOf "恢复会话失败" t)) s
      | inr cid =>
        (* line 168 has run when the mapping of line 169 throws *)
        withError (Some (messageOf "恢复会话失败" thrown))
          (setConversationId (Some cid) s)
      end
    end
  end.

(** Replacement of the message at [assistantIndex] by an updated copy.
    The index is that of the placeholder pushed by the same call, so it
    is in range (lemma [submit_outcome]). *)
Definition replaceMessage (i : nat) (m : Message) (s : ChatState) : ChatState :=
  withMessages (<[i := m]> (messages s)) s.

(** [messages.value[assistantIndex]] followed by a read of [.content]. *)
Definition openMessage (i : nat) (s : ChatState) : Thrown + Message :=
  match messages s !! i with
  | Some m => inr m
  | None => inl (ThrownError (TypeError_message JUndefined "content"))
  end.

(** [data.content || ""], as appended to a string. *)
Definition fragment (data : jsval) : Thrown + string :=
  v ← getProp data "content";
  inr (if truthy v then asString v else "").

(** The code run for one decoded event, from [JSON.parse] to the end of
    the [if / else if] chain. *)
Definition dispatch (assistantIndex : nat) (currentEvent currentData : string)
    (ts : TurnState) : Thrown + TurnState :=
  data ← JSON_parse currentData;
  if String.eqb currentEvent "meta" then
    cid ← getProp data "conversation_id";
    nc ← getProp data "needs_clarification";
    inr (mkTurn
           (if truthy cid then setConversationId (Some cid) (chat ts) else chat ts)
           (truthy nc))
  else if String.eqb currentEvent "delta" then
    currentMessage ← openMessage assistantIndex (chat ts);
    f ← fragment data;
    inr (mkTurn
           (replaceMessage assistantIndex
              (mkMessage (msg_id currentMessage) (role currentMessage)
                 (content currentMessage +:+ f)
                 (citations currentMessage)
                 (Some (clarification ts)))
              (chat ts))
           (clarification ts))
  else if String.eqb currentEvent "citations" then
    currentMessage ← openMessage assistantIndex (chat ts);
    let noInfo := includes (content currentMessage) NO_INFO_MARKER in
    let cits :=
      if noInfo || clarification ts || negb (isArray data) then []
      else arrayItems data in
    inr (mkTurn
           (replaceMessage assistantIndex
              (mkMessage (msg_id currentMessage) (role currentMessage)
                 (content currentMessage)
                 (Some cits)
                 (Some (clarification ts)))
              (withCurrentCitations cits (chat ts)))
           (clarification ts))
  else inr ts.

(** The [try] block of [submit]. *)
Definition submit_try (assistantIndex : nat) (c : CreateOutcome)
    (a : AskOutcome) (s : ChatState) : Completion TurnState :=
  match ensureConversation c s with
  | Abrupt t s1 => Abrupt t (mkTurn s1 false)
  | Normal s1 =>
      match a with
      | AskRejected t => Abrupt t (mkTurn s1 false)
      | AskResponse status body =>
          if negb (status_ok status) then
            Abrupt (ThrownError ("API error: " +:+ string_of_status status))
              (mkTurn s1 false)
          else match body with
               | None => Abrupt (ThrownError "No response body") (mkTurn s1 false)
               | Some reader =>
                   read_all (dispatch assistantIndex) reader (mkTurn s1 false)
               end
      end
  end.

(** The [catch] clause of [submit]; the spread copies the message at
    [assistantIndex], which exists (see [replaceMessage]). *)
Definition submit_catch (assistantIndex : nat) (t : Thrown) (s : ChatState)
    : ChatState :=
  let s1 := withError (Some (messageOf "Unknown error" t)) s in
  withMessages (alter (setContent FAILURE_TEXT) assistantIndex (messages s1)) s1.

(** [submit()]; [id1] and [id2] are the two results of [generateId()]. *)
Definition submit (id1 id2 : string) (c : CreateOutcome) (a : AskOutcome)
    (s : ChatState) : ChatState :=
  if negb (nonempty (String_trim (input s))) || isLoading s then s
  else
    let query := String_trim (input s) in
    let userMessage := mkMessage id1 user query None None in
    let s := withMessages (messages s ++ [userMessage]) s in
    let s := withInput "" s in
    let s := withLoading true s in
    let s := withError None s in
    let s := withCurrentCitations [] s in
    let assistantMessage := mkMessage id2 assistant "" (Some []) (Some false) in
    let s := withMessages (messages s ++ [assistantMessage]) s in
    let assistantIndex := length (messages s) - 1 in
    let s :=
      match submit_try assistantIndex c a s with
      | Normal ts => chat ts
      | Abrupt t ts => submit_catch assistantIndex t (chat ts)
      end in
    withLoading false s.                                   (* finally *)

Definition clear (s : ChatState) : ChatState :=
  withError None (withSelected None (withCurrentCitations [] (withMessages [] s))).

Definition startNewConversation (c : CreateOutcome) (s : ChatState) : ChatState :=
  let s := setConversationId None (clear s) in
  match createConversation c s with
  | Normal s' => s'
  | Abrupt t s' => withError (Some (messageOf "创建新对话失败" t)) s'
  end.

(** The content of a ref assigned [v]: [null] is [None]. *)
Definition refOf (v : jsval) : option Citation :=
  match v with JNull => None | _ => Some v end.

Definition selectCitation (c : Citation) (s : ChatState) : ChatState :=
  withSelected (refOf c) s.

(** ** The page handlers (pages/index.vue) *)

(** [v === n] for a number [n]. *)
Definition strictEqNumber (v : jsval) (n : float) : bool :=
  match v with JNum f => PrimFloat.eqb f n | _ => false end.

(** [currentCitations.value.find((c) => c.id === citationId)] *)
Fixpoint findCitation (citationId : float) (cs : list Citation)
    : Thrown + option Citation :=
  match cs with
  | [] => inr None
  | c :: rest =>
      v ← getProp c "id";
      if strictEqNumber v citationId then inr (Some c)
      else findCitation citationId rest
  end.

(** A throw inside an event handler leaves the refs as they are. *)
Definition handleCitationClick (citationId : float) (s : ChatState) : ChatState :=
  match findCitation citationId (currentCitations s) with
  | inr (Some citation) =>
      if truthy citation then selectCitation citation s else s
  | _ => s
  end.

Definition handleMessageClick (message : Message) (s : ChatState) : ChatState :=
  match citations message with
  | Some (c :: cs) => selectCitation c (withCurrentCitations (c :: cs) s)
  | _ => withCurrentCitations [] s
  end.

(** The operations of the session core and their inputs. *)
Inductive Operation : Type :=
| OpSubmit (id1 id2 : string) (c : CreateOutcome) (a : AskOutcome)
| OpRestore (h : HistoryOutcome)
| OpClear
| OpStartNewConversation (c : CreateOutcome)
| OpMarkerClick (citationId : float)
| OpMessageClick (message : Message).

Definition perform (op : Operation) (s : ChatState) : ChatState :=
  match op with
  | OpSubmit id1 id2 c a => submit id1 id2 c a s
  | OpRestore h => restoreConversationMessages h s
  | OpClear => clear s
  | OpStartNewConversation c => startNewConversation c s
  | OpMarkerClick n => handleCitationClick n s
  | OpMessageClick m => handleMessageClick m s
  end.

(** [selectedCitation] is null or one of [currentCitations]. *)
Definition selectionScoped (s : ChatState) : Prop :=
  match selectedCitation s with
  | None => True
  | Some c => In c (currentCitations s)
  end.
End Session.

(* ================================================================== *)
(** ** Notions used in the statements *)

Section Fragments.
Context `{JsRuntime}.

(** The fragment a [delta] payload contributes: [data.content || ""]. *)
Definition payload_fragment (payload : string) : string :=
match JSON_parse payload ≫= fragment with
| inr f => f
| inl _ => ""
end.

(** The fragment an event contributes to the content of the open message. *)
Definition event_text (ev payload : string) : string :=
if String.eqb ev "delta" then payload_fragment payload else "".

(** Concatenation, in order, of the fragments of the [delta] events. *)
Fixpoint delta_text (evs : list (string * string)) : string :=
match evs with
| [] => ""
| (ev, payload) :: rest =>
    if String.eqb ev "delta" then payload_fragment payload +:+ delta_text rest
    else delta_text rest
end.

(** The turn fails before any event is dispatched: the conversation cannot
    be created, the request is rejected, the status is not a success, the
    body is absent, or a read is rejected before a first event is decoded. *)
Definition failsBeforeEvents (c : CreateOutcome) (a : AskOutcome)
    (s : ChatState) : bool :=
match ensureConversation c s with
| Abrupt _ _ => true
| Normal _ =>
    match a with
    | AskRejected _ => true
    | AskResponse status body =>
        negb (status_ok status) ||
        match body with
        | None => true
        | Some r =>
            match ending r, decoded_events (chunks r) with
            | ReadThrows _, [] => true
            | _, _ => false
            end
        end
    end
end.
(** The state of [submit] when it enters its [try] block: both messages
    pushed, input emptied, loading set, error and current citations reset. *)
Definition openTurn (id1 id2 : string) (s : ChatState) : ChatState :=
mkChatState
  (messages s ++ [mkMessage id1 user (String_trim (input s)) None None;
                  mkMessage id2 assistant "" (Some []) (Some false)])
  "" true None [] (selectedCitation s) (conversationId s) (hasWindow s) (stored s).

(** What a turn never writes. *)
Definition turnFrame (s s' : ChatState) : Prop :=
input s' = input s /\ isLoading s' = isLoading s /\ error s' = error s /\
selectedCitation s' = selectedCitation s /\ hasWindow s' = hasWindow s.

(** Equality of two states up to the conversation identity, in memory and
    persisted. *)
Definition sameButIdentity (s s' : ChatState) : Prop :=
messages s' = messages s /\ currentCitations s' = currentCitations s /\
turnFrame s s'.

(** [Boolean(data.needs_clarification)] for the payload of a [meta] event
    that parses. *)
Definition clarificationOf (payload : string) : bool :=
match JSON_parse payload ≫= (fun data => getProp data "needs_clarification") with
| inr v => truthy v
| inl _ => false
end.

(** The history request of restore fails before the body is used:
    rejected fetch, a status that is neither 404 nor a success, a body
    that is not JSON, or a body (null) of which [conversation_id] cannot be
    read. *)
Definition historyFails (h : HistoryOutcome) : bool :=
match h with
| HistoryRejected _ => true
| HistoryResponse status json =>
    negb (status =? 404)%Z &&
    (negb (status_ok status) || match json with inl _ => true | inr _ => false end)
| HistoryMalformed status payload _ =>
    negb (status =? 404)%Z &&
    (negb (status_ok status) ||
     match getProp payload "conversation_id" with inl _ => true | inr _ => false end)
end.

(** The operations that replace [currentCitations] and never write
    [selectedCitation]: [submit], and a click on a message that has no
    citation. *)
Definition leavesSelection (op : Operation) : bool :=
match op with
| OpSubmit _ _ _ _ => true
| OpMessageClick m =>
    match citations m with
    | Some (_ :: _) => false
    | _ => true
    end
| _ => false
end.
End Fragments.

(* ================================================================== *)
(** ** The variables of the read loop, the turn and the page *)

(** The value of [buffer] after the reads of [values]. *)
Fixpoint pending_buffer (values : list string) (buffer : string) : string :=
  match values with
  | [] => buffer
  | value :: rest =>
      pending_buffer rest (List.last (split_nl (buffer +:+ value)) "")
  end.

(** The complete lines of the read that appends [value] to [buffer]. *)
Definition complete_lines (buffer value : string) : list string :=
  removelast (split_nl (buffer +:+ value)).

(** The value of [currentEvent] after the lines of one read. *)
Fixpoint pending_event (lines : list string) (currentEvent : string) : string :=
  match lines with
  | [] => currentEvent
  | line :: rest =>
      if startsWith line "event: " then pending_event rest (slice 7 line)
      else if startsWith line "data: " then
        if negb (nonempty currentEvent) || negb (nonempty (slice 6 line)) then
          pending_event rest currentEvent
        else pending_event rest ""
      else pending_event rest currentEvent
  end.

(** The event types that have a branch in the dispatcher. *)
Definition knownEvent (ev : string) : bool :=
  String.eqb ev "meta" || String.eqb ev "delta" || String.eqb ev "citations".

(** [showCitationPanel]: [currentCitations.value.length > 0]. *)
Definition showCitationPanel (s : ChatState) : bool :=
  match currentCitations s with
  | [] => false
  | _ :: _ => true
  end.

(** The timeline of an open turn: the messages held before it, the user
    message, and an assistant message with the id generated for it, whose
    citation list is the current one. *)
Definition turnShape (before : list Message) (userMessage : Message)
    (id2 : string) (s : ChatState) : Prop :=
  exists m,
    messages s = before ++ [userMessage; m] /\
    msg_id m = id2 /\ role m = assistant /\
    citations m = Some (currentCitations s) /\
    is_Some (isClarification m).

(** The session [s'] that [startNewConversation] leaves from [s] when the
    creation fails with the message [msg]: the error is shown and no
    identity is held, in memory or (in a browser) persisted. *)
Definition leftWithoutIdentity (s s' : ChatState) (msg : string) : Prop :=
  error s' = Some msg /\ conversationId s' = None /\
  (hasWindow s = true -> stored s' = None).

Section Page.
Context `{JsRuntime}.

(** [handleExampleClick(example)]: [input.value = example; submit()]. *)
Definition handleExampleClick (example : string) (id1 id2 : string)
    (c : CreateOutcome) (a : AskOutcome) (s : ChatState) : ChatState :=
submit id1 id2 c a (withInput example s).

(** In a browser, an identity held in memory is the one persisted. *)
Definition identityMirrored (s : ChatState) : Prop :=
hasWindow s = true ->
forall v, conversationId s = Some v -> truthy v = true ->
          stored s = Some (asString v).

(** [c.id === citationId] evaluates to [false] (and does not throw). *)
Definition otherId (citationId : float) (c : Citation) : Prop :=
exists v, getProp c "id" = inr v /\ strictEqNumber v citationId = false.
End Page.

(* ================================================================== *)
(** ** A runtime and data for the examples

    [sample_parse] agrees with [JSON.parse] on the payloads listed in
    [sample_payloads]; every other text is reported as a syntax error,
    which is what [JSON.parse] does for the malformed payload [nope] of
    the examples. *)

Definition dq : string := String (ascii_of_nat 34) EmptyString.
Definition quoted (s : string) : string := dq +:+ s +:+ dq.

(** [{"content":"Hi"}] *)
Definition payload_hi : string :=
  "{" +:+ quoted "content" +:+ ":" +:+ quoted "Hi" +:+ "}".
(** [{"content":" there"}] *)
Definition payload_there : string :=
  "{" +:+ quoted "content" +:+ ":" +:+ quoted " there" +:+ "}".
(** [{"needs_clarification":true}] *)
Definition payload_clarify : string :=
  "{" +:+ quoted "needs_clarification" +:+ ":true}".
(** [{}] *)
Definition payload_empty : string := "{}".
(** [[{"id":1}]] *)
Definition payload_citations : string :=
  "[{" +:+ quoted "id" +:+ ":1}]".

(** [{"conversation_id":"c-1","needs_clarification":false}] *)
Definition payload_meta : string :=
  "{" +:+ quoted "conversation_id" +:+ ":" +:+ quoted "c-1" +:+ ","
      +:+ quoted "needs_clarification" +:+ ":false}".
(** [{"content":"Habits compound [1]."}] *)
Definition payload_habits : string :=
  "{" +:+ quoted "content" +:+ ":" +:+ quoted "Habits compound [1]." +:+ "}".

Definition citation1 : Citation := JObj [("id", JNum 1%float)].
Definition citation2 : Citation := JObj [("id", JNum 2%float)].

Definition sample_payloads : list (string * jsval) :=
  [ (payload_hi, JObj [("content", JStr "Hi")]);
    (payload_there, JObj [("content", JStr " there")]);
    (payload_clarify, JObj [("needs_clarification", JBool true)]);
    (payload_empty, JObj []);
    (payload_citations, JArr [citation1]);
    (payload_meta, JObj [("conversation_id", JStr "c-1");
                         ("needs_clarification", JBool false)]);
    (payload_habits, JObj [("content", JStr "Habits compound [1].")]);
    ("null", JNull) ].

Fixpoint lookup_payload (text : string) (table : list (string * jsval))
    : option jsval :=
  match table with
  | [] => None
  | (k, v) :: rest => if String.eqb text k then Some v else lookup_payload text rest
  end.

Definition sample_parse (text : string) : Thrown + jsval :=
  match lookup_payload text sample_payloads with
  | Some v => inr v
  | None => inl (ThrownError "Unexpected token in JSON")
  end.

Definition sample_runtime : JsRuntime := {|
  JSON_parse := sample_parse;
  ToString := fun _ => "[object Object]";
  String_trim := fun s => s;   (* the examples have no surrounding space *)
  TypeError_message := fun _ p => "Cannot read properties of null (reading '" +:+ p +:+ "')";
|}.

(** A browser session with a persisted identity and nothing loaded. *)
Definition mounted : ChatState := initialState true (Some "c-1").

(** A page of history: a cited answer, then a clarification. *)
Definition sample_history : ConversationListResponse :=
  mkConversationList "c-1"
    [ mkHistoryItem "m1" user "habits?" None None;
      mkHistoryItem "m2" assistant "Habits compound [1]."
        (Some [citation1; citation2]) (Some false);
      mkHistoryItem "m3" user "and?" None None;
      mkHistoryItem "m4" assistant "Which book do you mean?" None (Some true) ].

(** A body that lacks its messages: [{"conversation_id":"c-9"}], and the
    [TypeError] that [payload.messages.map] raises on it. *)
Definition malformed_history : jsval := JObj [("conversation_id", JStr "c-9")].
Definition map_of_undefined : Thrown :=
  ThrownError "Cannot read properties of undefined (reading 'map')".

(** A message with citations and one without, as clicked in the page. *)
Definition cited_message : Message :=
  mkMessage "m2" assistant "Habits compound [1]." (Some [citation1; citation2])
    (Some false).
Definition plain_message : Message :=
  mkMessage "m1" user "habits?" None None.

(** The session of the example scenario of the design document: no
    persisted identity, a question typed. *)
Definition scenario_state : ChatState :=
  mkChatState [] "What does the note say about habits?" false None [] None None
    true None.

(** A session just set up, with a query typed in the input box. *)
Definition fresh_typed : ChatState :=
  mkChatState [] "hello" false None [] None None true None.

(** A session in which the user has typed a query. *)
Definition typed : ChatState :=
  mkChatState [] "hello" false None [] None (Some (JStr "c-1")) true (Some "c-1").

(* ================================================================== *)
(** * Properties *)

(** ** Lines and frames *)

Lemma string_app_assoc (a b c : string) : (a +:+ b) +:+ c = a +:+ (b +:+ c).
Proof. induction a as [|x a IH]; cbn; [reflexivity | f_equal; exact IH]. Qed.

Lemma string_app_nil_r (a : string) : a +:+ "" = a.
Proof. induction a as [|x a IH]; cbn; [reflexivity | f_equal; exact IH]. Qed.

(** A newline-free text followed by a newline is the first line. *)
Lemma split_nl_line (l rest : string) :
  no_newline l = true -> split_nl (l +:+ nl +:+ rest) = l :: split_nl rest.
Proof.
  induction l as [|c l IH]; intros Hl.
  - reflexivity.
  - simpl in Hl. apply andb_true_iff in Hl as [Hc Hl].
    apply negb_true_iff in Hc.
    change (String c l +:+ nl +:+ rest) with (String c (l +:+ nl +:+ rest)).
    cbn [split_nl]. rewrite Hc, (IH Hl). reflexivity.
Qed.

Lemma no_newline_app (a b : string) :
  no_newline a = true -> no_newline b = true -> no_newline (a +:+ b) = true.
Proof.
  induction a as [|c a IH]; simpl; intros Ha Hb; [exact Hb |].
  apply andb_true_iff in Ha as [Hc Ha]. rewrite Hc. now apply IH.
Qed.

Lemma render_frame_lines (f : string * string) (rest : string) :
  frame_ok f = true ->
  split_nl (render_frame f +:+ rest) = frame_lines f ++ split_nl rest.
Proof.
  destruct f as [t p]. unfold frame_ok, render_frame, frame_lines. simpl fst; simpl snd.
  intros Hok. repeat (apply andb_true_iff in Hok as [Hok ?]).
  replace (("event: " +:+ t +:+ nl +:+ "data: " +:+ p +:+ nl +:+ nl) +:+ rest)
    with (("event: " +:+ t) +:+ nl +:+ (("data: " +:+ p) +:+ nl +:+ ("" +:+ nl +:+ rest))).
  2:{ rewrite !string_app_assoc. reflexivity. }
  rewrite split_nl_line by (apply no_newline_app; [reflexivity | assumption]).
  rewrite split_nl_line by (apply no_newline_app; [reflexivity | assumption]).
  rewrite split_nl_line by reflexivity.
  reflexivity.
Qed.

Lemma split_render_frames (fs : list (string * string)) :
  Forall (fun f => frame_ok f = true) fs ->
  split_nl (render_frames fs) = flat_map frame_lines fs ++ [""].
Proof.
  induction 1 as [|f fs Hf _ IH]; [reflexivity |].
  cbn [render_frames flat_map]. rewrite render_frame_lines by assumption.
  rewrite IH. apply List.app_assoc.
Qed.

Lemma prefix_nil (s : string) : String.prefix "" s = true.
Proof. destruct s; reflexivity. Qed.

Lemma startsWith_event (t : string) : startsWith ("event: " +:+ t) "event: " = true.
Proof. unfold startsWith. simpl. apply prefix_nil. Qed.

Lemma startsWith_data (p : string) : startsWith ("data: " +:+ p) "data: " = true.
Proof. unfold startsWith. simpl. apply prefix_nil. Qed.

Lemma events_of_lines_frame (t p : string) (rest : list string) :
  nonempty t = true -> nonempty p = true ->
  events_of_lines (frame_lines (t, p) ++ rest) "" = (t, p) :: events_of_lines rest "".
Proof.
  intros Ht Hp. unfold frame_lines. cbn [fst snd app].
  cbn [events_of_lines]. rewrite startsWith_event.
  replace (startsWith ("data: " +:+ p) "event: ") with false by reflexivity.
  rewrite startsWith_data.
  change (slice 7 ("event: " +:+ t)) with t.
  change (slice 6 ("data: " +:+ p)) with p.
  rewrite Ht, Hp. reflexivity.
Qed.

Lemma events_of_frame_lines (fs : list (string * string)) :
  Forall (fun f => frame_ok f = true) fs ->
  events_of_lines (flat_map frame_lines fs) "" = fs.
Proof.
  induction 1 as [|[t p] fs Hf _ IH]; [reflexivity |].
  unfold frame_ok in Hf. simpl fst in Hf; simpl snd in Hf.
  repeat (apply andb_true_iff in Hf as [Hf ?]).
  cbn [flat_map]. rewrite events_of_lines_frame by assumption.
  f_equal. exact IH.
Qed.

(** ** The loop dispatches exactly the decoded events, in order *)

Section LoopFacts.
Context {S : Type} (handle : string -> string -> S -> Thrown + S).

Lemma for_lines_run (lines : list string) (ce cd : string) (st : S) :
  for_lines handle lines ce cd st = run_events handle (events_of_lines lines ce) st.
Proof.
  revert ce cd st. induction lines as [|line rest IH]; intros ce cd st.
  - reflexivity.
  - cbn [for_lines events_of_lines].
    destruct (startsWith line "event: "); [apply IH |].
    destruct (startsWith line "data: "); [| apply IH].
    destruct (negb (nonempty ce) || negb (nonempty (slice 6 line))); [apply IH |].
    cbn [run_events]. destruct (handle ce (slice 6 line) st); [reflexivity | apply IH].
Qed.

Lemma run_events_app (evs1 evs2 : list (string * string)) (st : S) :
  run_events handle (evs1 ++ evs2) st =
  match run_events handle evs1 st with
  | Normal st' => run_events handle evs2 st'
  | Abrupt t st' => Abrupt t st'
  end.
Proof.
  revert st. induction evs1 as [|[ev d] evs1 IH]; intros st; [reflexivity |].
  cbn [app run_events]. destruct (handle ev d st); [reflexivity | apply IH].
Qed.

Lemma read_loop_run (values : list string) (buffer : string) (st : S) :
  read_loop handle values buffer st =
  run_events handle (events_of_chunks values buffer) st.
Proof.
  revert buffer st. induction values as [|value rest IH]; intros buffer st.
  - reflexivity.
  - cbn [read_loop events_of_chunks]. rewrite run_events_app, for_lines_run.
    destruct (run_events handle _ st); [apply IH | reflexivity].
Qed.
End LoopFacts.

Lemma run_record (evs log : list (string * string)) :
  run_events record_event evs log = Normal (log ++ evs).
Proof.
  revert log. induction evs as [|[ev d] evs IH]; intros log.
  - now rewrite app_nil_r.
  - cbn [run_events record_event]. rewrite IH, <- List.app_assoc. reflexivity.
Qed.

Lemma decoded_events_chunks (values : list string) :
  decoded_events values = events_of_chunks values "".
Proof. unfold decoded_events. rewrite read_loop_run, run_record. reflexivity. Qed.

(** Chunks that each hold whole frames decode to the frames, in order. *)
Lemma events_of_frame_chunks (groups : list (list (string * string))) :
  Forall (Forall (fun f => frame_ok f = true)) groups ->
  events_of_chunks (map render_frames groups) "" = concat groups.
Proof.
  induction 1 as [|fs groups Hfs _ IH]; [reflexivity |].
  cbn [map events_of_chunks concat].
  change ("" +:+ render_frames fs) with (render_frames fs).
  rewrite split_render_frames by assumption.
  rewrite removelast_last, last_last, events_of_frame_lines by assumption.
  f_equal. exact IH.
Qed.

Lemma decoded_events_frames (groups : list (list (string * string))) :
  Forall (Forall (fun f => frame_ok f = true)) groups ->
  decoded_events (map render_frames groups) = concat groups.
Proof. intros. rewrite decoded_events_chunks. now apply events_of_frame_chunks. Qed.

(** ** One dispatched event *)

Section TurnFacts.
Context `{JsRuntime}.

Lemma bind_inr {A B : Type} (m : Thrown + A) (f : A -> Thrown + B) (b : B) :
  m ≫= f = inr b -> exists a, m = inr a /\ f a = inr b.
Proof. destruct m as [t|a]; [discriminate | eauto]. Qed.

Lemma openMessage_inr (i : nat) (s : ChatState) (m : Message) :
  openMessage i s = inr m <-> messages s !! i = Some m.
Proof.
  unfold openMessage. destruct (messages s !! i); split; congruence.
Qed.

Lemma delta_text_cons (ev payload : string) (rest : list (string * string)) :
  delta_text ((ev, payload) :: rest) = event_text ev payload +:+ delta_text rest.
Proof. unfold event_text. cbn [delta_text]. destruct (String.eqb ev "delta"); reflexivity. Qed.

(** A dispatched event replaces at most the open message, keeps its id
    and role, and appends to its content the fragment of a [delta]. *)
Lemma dispatch_open_message (i : nat) (ev payload : string) (ts ts' : TurnState)
    (m : Message) :
  messages (chat ts) !! i = Some m ->
  dispatch i ev payload ts = inr ts' ->
  exists m',
    messages (chat ts') = <[i := m']> (messages (chat ts)) /\
    msg_id m' = msg_id m /\ role m' = role m /\
    content m' = content m +:+ event_text ev payload.
Proof.
  intros Hm Hd. unfold dispatch in Hd.
  apply bind_inr in Hd as (data & Hp & Hd).
  unfold event_text, payload_fragment. rewrite Hp. cbn [mbind thrown_bind].
  destruct (String.eqb_spec ev "meta") as [->|_].
  { apply bind_inr in Hd as (cid & _ & Hd). apply bind_inr in Hd as (nc & _ & Hd).
    injection Hd as <-. exists m. cbn [chat String.eqb Ascii.eqb Bool.eqb].
    rewrite string_app_nil_r, list_insert_id by exact Hm.
    destruct (truthy cid); auto. }
  destruct (String.eqb_spec ev "delta") as [->|_].
  { apply bind_inr in Hd as (cm & Hcm & Hd). apply bind_inr in Hd as (f & Hf & Hd).
    apply openMessage_inr in Hcm. rewrite Hm in Hcm. injection Hcm as <-.
    injection Hd as <-. rewrite Hf. eexists. cbn [chat]. unfold replaceMessage.
    cbn [messages withMessages]. split; [reflexivity |]. auto. }
  destruct (String.eqb_spec ev "citations") as [->|_].
  { apply bind_inr in Hd as (cm & Hcm & Hd).
    apply openMessage_inr in Hcm. rewrite Hm in Hcm. injection Hcm as <-.
    injection Hd as <-. eexists. cbn [chat]. unfold replaceMessage.
    cbn [messages withMessages withCurrentCitations]. split; [reflexivity |].
    cbn [msg_id role content]. rewrite string_app_nil_r. auto. }
  injection Hd as <-. exists m.
  rewrite string_app_nil_r, list_insert_id by exact Hm. auto.
Qed.

(** The same over a run of events that all dispatch. *)
Lemma run_events_open_message (i : nat) (evs : list (string * string))
    (ts ts' : TurnState) (m : Message) :
  messages (chat ts) !! i = Some m ->
  run_events (dispatch i) evs ts = Normal ts' ->
  exists m',
    messages (chat ts') = <[i := m']> (messages (chat ts)) /\
    msg_id m' = msg_id m /\ role m' = role m /\
    content m' = content m +:+ delta_text evs.
Proof.
  revert ts m. induction evs as [|[ev payload] evs IH]; intros ts m Hm Hrun.
  - injection Hrun as <-. exists m.
    cbn [delta_text]. rewrite string_app_nil_r, list_insert_id by exact Hm. auto.
  - cbn [run_events] in Hrun.
    destruct (dispatch i ev payload ts) as [t|ts1] eqn:Hd; [discriminate |].
    destruct (dispatch_open_message _ _ _ _ _ _ Hm Hd) as (m1 & Hms1 & Hid1 & Hr1 & Hc1).
    assert (Hm1 : messages (chat ts1) !! i = Some m1).
    { rewrite Hms1. apply list_lookup_insert_eq. eapply lookup_lt_Some, Hm. }
    destruct (IH ts1 m1 Hm1 Hrun) as (m' & Hms & Hid & Hr & Hc).
    exists m'. rewrite Hms, Hms1, list_insert_insert_eq, Hid, Hr, Hc, Hc1.
    rewrite delta_text_cons, string_app_assoc. auto.
Qed.
End TurnFacts.

(** ** The frame of a turn *)

Section SubmitFacts.
Context `{JsRuntime}.

Lemma turnFrame_refl (s : ChatState) : turnFrame s s.
Proof. unfold turnFrame. auto. Qed.

Lemma turnFrame_trans (s1 s2 s3 : ChatState) :
  turnFrame s1 s2 -> turnFrame s2 s3 -> turnFrame s1 s3.
Proof. unfold turnFrame. intuition congruence. Qed.

Lemma setConversationId_same (id : option jsval) (s : ChatState) :
  sameButIdentity s (setConversationId id s).
Proof. unfold sameButIdentity, turnFrame. cbn. auto 10. Qed.

Lemma sameButIdentity_refl (s : ChatState) : sameButIdentity s s.
Proof. unfold sameButIdentity, turnFrame. auto 10. Qed.

Lemma createConversation_same (c : CreateOutcome) (s : ChatState) :
  sameButIdentity s (completed (createConversation c s)).
Proof.
  unfold createConversation.
  destruct c as [t|status [t|payload]]; cbn [completed];
    try apply sameButIdentity_refl.
  - destruct (negb (status_ok status)); apply sameButIdentity_refl.
  - destruct (negb (status_ok status)); [apply sameButIdentity_refl |].
    destruct (getProp payload "conversation_id") as [t|cid];
      [apply sameButIdentity_refl |].
    destruct (negb (truthy cid)); cbn [completed];
      [apply sameButIdentity_refl | apply setConversationId_same].
Qed.

Lemma ensureConversation_same (c : CreateOutcome) (s : ChatState) :
  sameButIdentity s (completed (ensureConversation c s)).
Proof.
  unfold ensureConversation.
  destruct (conversationId s) as [v|]; [destruct (truthy v) |];
    try apply createConversation_same.
  apply sameButIdentity_refl.
Qed.

(** Whether the conversation can be ensured depends on the identity held
    and on the outcome of the creation request only. *)
Lemma ensureConversation_outcome (c : CreateOutcome) (s s0 : ChatState) :
  conversationId s0 = conversationId s ->
  match ensureConversation c s, ensureConversation c s0 with
  | Normal _, Normal _ => True
  | Abrupt t _, Abrupt t0 _ => t = t0
  | _, _ => False
  end.
Proof.
  intros Hc. unfold ensureConversation, createConversation. rewrite Hc.
  destruct (conversationId s) as [v|]; [destruct (truthy v); [exact I |] |];
    (destruct c as [t|status [t|payload]]; [reflexivity | |];
     (destruct (negb (status_ok status)); [reflexivity |]); [reflexivity |];
     destruct (getProp payload "conversation_id") as [t|cid]; [reflexivity |];
     destruct (negb (truthy cid)); [reflexivity | exact I]).
Qed.

Lemma dispatch_frame (i : nat) (ev payload : string) (ts ts' : TurnState) :
  dispatch i ev payload ts = inr ts' -> turnFrame (chat ts) (chat ts').
Proof.
  unfold dispatch. intros Hd.
  apply bind_inr in Hd as (data & _ & Hd).
  destruct (String.eqb ev "meta").
  { apply bind_inr in Hd as (cid & _ & Hd). apply bind_inr in Hd as (nc & _ & Hd).
    injection Hd as <-. cbn [chat]. destruct (truthy cid);
      [apply setConversationId_same | apply turnFrame_refl]. }
  destruct (String.eqb ev "delta").
  { apply bind_inr in Hd as (cm & _ & Hd). apply bind_inr in Hd as (f & _ & Hd).
    injection Hd as <-. unfold turnFrame. cbn. auto. }
  destruct (String.eqb ev "citations").
  { apply bind_inr in Hd as (cm & _ & Hd).
    injection Hd as <-. unfold turnFrame. cbn. auto. }
  injection Hd as <-. apply turnFrame_refl.
Qed.

Lemma run_events_frame (i : nat) (evs : list (string * string)) (ts : TurnState) :
  turnFrame (chat ts) (chat (completed (run_events (dispatch i) evs ts))).
Proof.
  revert ts. induction evs as [|[ev payload] evs IH]; intros ts.
  - apply turnFrame_refl.
  - cbn [run_events]. destruct (dispatch i ev payload ts) as [t|ts1] eqn:Hd.
    + apply turnFrame_refl.
    + eapply turnFrame_trans; [eapply dispatch_frame, Hd | apply IH].
Qed.

Lemma completed_read_all {S : Type} (h : string -> string -> S -> Thrown + S)
    (r : Reader) (st : S) :
  completed (read_all h r st) = completed (run_events h (decoded_events (chunks r)) st).
Proof.
  unfold read_all. rewrite read_loop_run, decoded_events_chunks.
  destruct (run_events h _ st); [destruct (ending r) |]; reflexivity.
Qed.

Lemma submit_try_frame (i : nat) (c : CreateOutcome) (a : AskOutcome)
    (s : ChatState) :
  turnFrame s (chat (completed (submit_try i c a s))).
Proof.
  unfold submit_try.
  pose proof (ensureConversation_same c s) as (_ & _ & Hf).
  destruct (ensureConversation c s) as [s1|t s1]; cbn [completed] in Hf;
    [| exact Hf].
  destruct a as [t|status [r|]]; cbn [completed chat]; try exact Hf.
  - destruct (negb (status_ok status)); cbn [completed chat]; [exact Hf |].
    rewrite completed_read_all.
    eapply turnFrame_trans; [exact Hf |]. apply (run_events_frame i _ (mkTurn s1 false)).
  - destruct (negb (status_ok status)); exact Hf.
Qed.

(** [submit] past its guard. *)
Lemma submit_unfold (id1 id2 : string) (c : CreateOutcome) (a : AskOutcome)
    (s : ChatState) :
  nonempty (String_trim (input s)) = true -> isLoading s = false ->
  submit id1 id2 c a s =
  withLoading false
    match submit_try (S (length (messages s))) c a (openTurn id1 id2 s) with
    | Normal ts => chat ts
    | Abrupt t ts => submit_catch (S (length (messages s))) t (chat ts)
    end.
Proof.
  intros Hq Hl. unfold submit. rewrite Hq, Hl. cbn [negb orb].
  cbn [messages withMessages withInput withLoading withError withCurrentCitations
       input isLoading error currentCitations selectedCitation conversationId
       hasWindow stored].
  replace (length ((messages s ++ [mkMessage id1 user (String_trim (input s)) None None])
             ++ [mkMessage id2 assistant "" (Some []) (Some false)]) - 1)
    with (S (length (messages s))) by (rewrite !length_app; cbn; lia).
  unfold openTurn. rewrite <- List.app_assoc. reflexivity.
Qed.
End SubmitFacts.

(* ================================================================== *)
(** ** The stream decoder and chunk boundaries *)

(** C1 (the code does not do this): the stream made of the single frame
    [event: delta / data: {"content":"Hi"}] decodes to that event when it
    arrives as one chunk, and to no event at all when the chunk boundary
    falls between the event line and the data line: the pending event type
    is a variable of the loop body and is reset at every read. *)
Theorem split_between_event_and_data_loses_event :
  let whole := render_frames [("delta", payload_hi)] in
  let first := "event: delta" +:+ nl in
  let second := "data: " +:+ payload_hi +:+ nl +:+ nl in
  first +:+ second = whole /\
  frame_ok ("delta", payload_hi) = true /\
  decoded_events [whole] = [("delta", payload_hi)] /\
  decoded_events [first; second] = [].
Proof. vm_compute. repeat split; reflexivity. Qed.

(** A boundary inside the data line loses the event in the same way, while
    a boundary inside the event line does not. *)
Example split_inside_lines :
  decoded_events ["event: delta" +:+ nl +:+ "da"; "ta: " +:+ payload_hi +:+ nl +:+ nl] = [] /\
  decoded_events ["event: de"; "lta" +:+ nl +:+ "data: " +:+ payload_hi +:+ nl +:+ nl]
    = [("delta", payload_hi)].
Proof. vm_compute. split; reflexivity. Qed.

(** Chunks that each carry whole frames decode to the same events as the
    whole stream in one chunk. *)
Lemma decoded_events_whole_frames (groups : list (list (string * string))) :
  Forall (Forall (fun f => frame_ok f = true)) groups ->
  decoded_events (map render_frames groups)
  = decoded_events [render_frames (concat groups)].
Proof.
  intros Hg. rewrite decoded_events_frames by exact Hg.
  change [render_frames (concat groups)] with (map render_frames [concat groups]).
  rewrite decoded_events_frames.
  - cbn [concat]. now rewrite app_nil_r.
  - constructor; [| constructor]. now apply Forall_concat.
Qed.

(* ================================================================== *)
(** ** Content assembled by a turn *)

Section Content.
Context `{JsRuntime}.

Lemma open_message_lookup (l : list Message) (u a0 : Message) :
  (l ++ [u; a0]) !! S (length l) = Some a0.
Proof.
  rewrite lookup_app_r by lia.
  replace (S (length l) - length l) with 1 by lia. reflexivity.
Qed.

Lemma open_message_insert (l : list Message) (u a0 m : Message) :
  <[S (length l) := m]> (l ++ [u; a0]) = l ++ [u; m].
Proof.
  rewrite insert_app_r_alt by lia.
  replace (S (length l) - length l) with 1 by lia. reflexivity.
Qed.

(** A turn that ends without a thrown error has dispatched every decoded
    event, from the state in which the conversation is ensured. *)
Lemma submit_try_normal (i : nat) (c : CreateOutcome) (a : AskOutcome)
    (s : ChatState) (ts : TurnState) :
  submit_try i c a s = Normal ts ->
  exists status r s1,
    a = AskResponse status (Some r) /\ status_ok status = true /\
    ending r = ReadDone /\
    ensureConversation c s = Normal s1 /\
    run_events (dispatch i) (decoded_events (chunks r)) (mkTurn s1 false) = Normal ts.
Proof.
  unfold submit_try. intros Htry.
  destruct (ensureConversation c s) as [s1|t s1]; [| discriminate].
  destruct a as [t|status [r|]]; try discriminate.
  - destruct (status_ok status) eqn:Hok; [| discriminate]. cbn [negb] in Htry.
    unfold read_all in Htry. rewrite read_loop_run, <- decoded_events_chunks in Htry.
    destruct (run_events _ _ _) as [ts1|t ts1] eqn:Hrun; [| discriminate].
    destruct (ending r) eqn:He; [| discriminate].
    injection Htry as <-. exists status, r, s1. auto.
  - destruct (negb (status_ok status)); discriminate.
Qed.

(** Whatever the chunks, the content of the assistant message of a turn
    that ends without a thrown error is the concatenation of the fragments
    of the decoded [delta] events. *)
Lemma submit_content_decoded (id1 id2 : string) (c : CreateOutcome)
    (status : Z) (r : Reader) (s : ChatState) :
  nonempty (String_trim (input s)) = true -> isLoading s = false ->
  error (submit id1 id2 c (AskResponse status (Some r)) s) = None ->
  exists m,
    messages (submit id1 id2 c (AskResponse status (Some r)) s)
    = messages s ++ [mkMessage id1 user (String_trim (input s)) None None; m] /\
    msg_id m = id2 /\ role m = assistant /\
    content m = delta_text (decoded_events (chunks r)).
Proof.
  intros Hq Hl. rewrite submit_unfold by assumption.
  destruct (submit_try _ _ _ _) as [ts|t ts] eqn:Htry; [| discriminate].
  intros _. cbn [messages withLoading].
  apply submit_try_normal in Htry as (status' & r' & s1 & Ha & _ & _ & Hens & Hrun).
  injection Ha as <- <-.
  pose proof (ensureConversation_same c (openTurn id1 id2 s)) as (Hms & _).
  rewrite Hens in Hms. cbn [completed openTurn messages] in Hms.
  eapply run_events_open_message in Hrun as (m & Hm & Hid & Hr & Hc).
  2:{ cbn [chat]. rewrite Hms. apply open_message_lookup. }
  exists m. cbn [chat] in Hm. rewrite Hm, Hms, open_message_insert.
  cbn in Hid, Hr, Hc. auto.
Qed.

(** X19: when a turn ends without a thrown error, the content of its
    assistant message is the concatenation, in order and without
    reordering or deduplication, of the fragments of the delta events that
    the read loop decoded (the empty string standing for an absent
    fragment), whatever the chunks were; and when every chunk carries a
    sequence of whole frames, possibly none, these are the fragments of all
    the delta events of the stream. *)
Theorem delta_content_is_concatenation (id1 id2 : string) (c : CreateOutcome)
    (status : Z) (r : Reader) (s : ChatState) :
  nonempty (String_trim (input s)) = true -> isLoading s = false ->
  let a := AskResponse status (Some r) in
  error (submit id1 id2 c a s) = None ->
  exists m,
    messages (submit id1 id2 c a s)
    = messages s ++ [mkMessage id1 user (String_trim (input s)) None None; m] /\
    msg_id m = id2 /\ role m = assistant /\
    content m = delta_text (decoded_events (chunks r)) /\
    forall groups : list (list (string * string)),
      Forall (Forall (fun f => frame_ok f = true)) groups ->
      chunks r = map render_frames groups ->
      content m = delta_text (concat groups).
Proof.
  intros Hq Hl a Herr.
  destruct (submit_content_decoded id1 id2 c status r s Hq Hl Herr)
    as (m & Hm & Hid & Hr & Hc).
  exists m. repeat (split; [assumption |]).
  intros groups Hg Hchunks.
  now rewrite Hc, Hchunks, decoded_events_frames.
Qed.
End Content.

Lemma delta_content_is_concatenation_witness :
  let groups := [[("meta", payload_empty); ("delta", payload_hi)]; [];
                 [("delta", payload_there); ("citations", payload_citations)]] in
  let a := AskResponse 200 (Some (mkReader (map render_frames groups) ReadDone)) in
  exists m,
    messages (@submit sample_runtime "u1" "a1" (CreateRejected ThrownValue) a typed)
    = [mkMessage "u1" user "hello" None None; m] /\
    msg_id m = "a1" /\ role m = assistant /\ content m = "Hi there".
Proof.
  intros groups a.
  destruct (@delta_content_is_concatenation sample_runtime "u1" "a1"
              (CreateRejected ThrownValue) 200
              (mkReader (map render_frames groups) ReadDone) typed
              eq_refl eq_refl eq_refl)
    as (m & Hm & Hid & Hr & _ & Hc).
  exists m. split; [exact Hm |]. split; [exact Hid |]. split; [exact Hr |].
  apply (Hc groups); [repeat constructor | reflexivity].
Defined.

(** C2 (the code does not do this): the stream that delivers the single
    delta event with fragment [Hi] ends without error and with the content
    [Hi] when it arrives as one chunk, and ends without error and with an
    empty content when the chunk boundary falls between the event line and
    the data line: the event is never decoded (the defect of C1), so its
    fragment is missing from the concatenation. *)
Theorem split_delta_is_missing_from_content :
  let first := "event: delta" +:+ nl in
  let second := "data: " +:+ payload_hi +:+ nl +:+ nl in
  let turn values :=
    @submit sample_runtime "u1" "a1" (CreateRejected ThrownValue)
      (AskResponse 200 (Some (mkReader values ReadDone))) typed in
  first +:+ second = render_frames [("delta", payload_hi)] /\
  @delta_text sample_runtime [("delta", payload_hi)] = "Hi" /\
  (error (turn [first +:+ second]) = None /\
   messages (turn [first +:+ second])
   = [mkMessage "u1" user "hello" None None;
      mkMessage "a1" assistant "Hi" (Some []) (Some false)]) /\
  (error (turn [first; second]) = None /\
   messages (turn [first; second])
   = [mkMessage "u1" user "hello" None None;
      mkMessage "a1" assistant "" (Some []) (Some false)]).
Proof. vm_compute. repeat split; reflexivity. Qed.

(** The example scenario of the design document: on a fresh session the
    conversation [c-1] is created, then the stream carries a meta event, a
    delta event and a citations event. *)
Example example_scenario :
  let frames := [("meta", payload_meta); ("delta", payload_habits);
                 ("citations", payload_citations)] in
  let s' := @submit sample_runtime "u1" "a1"
              (CreateResponse 200 (inr (JObj [("conversation_id", JStr "c-1")])))
              (AskResponse 200 (Some (mkReader [render_frames frames] ReadDone)))
              scenario_state in
  messages s' =
    [mkMessage "u1" user "What does the note say about habits?" None None;
     mkMessage "a1" assistant "Habits compound [1]." (Some [citation1]) (Some false)] /\
  currentCitations s' = [citation1] /\
  conversationId s' = Some (JStr "c-1") /\ stored s' = Some "c-1" /\
  error s' = None /\ isLoading s' = false /\ input s' = "".
Proof. vm_compute. repeat split; reflexivity. Qed.

(* ================================================================== *)
(** ** Citation suppression *)

Section Citations.
Context `{JsRuntime}.

(** C3: a citations event whose payload parses attaches the payload
    sequence to the open assistant message, and makes it the current
    citations, exactly when the payload is an array, the clarification flag
    of the turn is false and the content assembled so far does not contain
    the no-information marker; when one of the three fails, both are set to
    the empty list. *)
Theorem citations_suppression (i : nat) (payload : string) (data : jsval)
    (ts : TurnState) (m : Message) :
  JSON_parse payload = inr data ->
  messages (chat ts) !! i = Some m ->
  exists ts' m',
    dispatch i "citations" payload ts = inr ts' /\
    messages (chat ts') !! i = Some m' /\
    content m' = content m /\
    (forall items, data = JArr items -> clarification ts = false ->
       includes (content m) NO_INFO_MARKER = false ->
       citations m' = Some items /\ currentCitations (chat ts') = items) /\
    (isArray data = false \/ clarification ts = true \/
       includes (content m) NO_INFO_MARKER = true ->
       citations m' = Some [] /\ currentCitations (chat ts') = []).
Proof.
  intros Hp Hm. unfold dispatch. rewrite Hp. cbn [mbind thrown_bind].
  cbn [String.eqb Ascii.eqb Bool.eqb andb].
  unfold openMessage. rewrite Hm. cbn [mbind thrown_bind].
  eexists _, _. split; [reflexivity |]. cbn [chat].
  unfold replaceMessage. cbn [messages withMessages withCurrentCitations currentCitations].
  split; [apply list_lookup_insert_eq; eapply lookup_lt_Some, Hm |].
  cbn [content citations]. split; [reflexivity |]. split.
  - intros items -> -> ->. cbn. auto.
  - intros [Ha | [Hc | Hn]].
    + rewrite Ha. cbn [negb]. rewrite !orb_true_r. auto.
    + rewrite Hc, orb_true_r. auto.
    + rewrite Hn. auto.
Qed.
End Citations.

Lemma citations_suppression_witness :
  let ts := mkTurn (@openTurn sample_runtime "u1" "a1" typed) false in
  exists ts' m',
    @dispatch sample_runtime 1 "citations" payload_citations ts = inr ts' /\
    messages (chat ts') !! 1 = Some m' /\
    content m' = "" /\
    (forall items, JArr [citation1] = JArr items -> false = false ->
       includes "" NO_INFO_MARKER = false ->
       citations m' = Some items /\ currentCitations (chat ts') = items) /\
    (isArray (JArr [citation1]) = false \/ false = true \/
       includes "" NO_INFO_MARKER = true ->
       citations m' = Some [] /\ currentCitations (chat ts') = []).
Proof.
  intros ts.
  apply (@citations_suppression sample_runtime 1 payload_citations
           (JArr [citation1]) ts
           (mkMessage "a1" assistant "" (Some []) (Some false))).
  - reflexivity.
  - reflexivity.
Defined.

(* ================================================================== *)
(** ** The clarification flag *)

Section Clarification.
Context `{JsRuntime}.

Lemma dispatch_meta_flag (i : nat) (payload : string) (ts ts' : TurnState) :
  dispatch i "meta" payload ts = inr ts' ->
  clarification ts' = clarificationOf payload.
Proof.
  unfold dispatch, clarificationOf. intros Hd.
  apply bind_inr in Hd as (data & -> & Hd). cbn [String.eqb Ascii.eqb Bool.eqb andb] in Hd.
  apply bind_inr in Hd as (cid & _ & Hd). apply bind_inr in Hd as (nc & Hnc & Hd).
  injection Hd as <-. cbn [mbind thrown_bind clarification]. now rewrite Hnc.
Qed.

Lemma dispatch_other_flag (i : nat) (ev payload : string) (ts ts' : TurnState) :
  ev <> "meta" ->
  dispatch i ev payload ts = inr ts' ->
  clarification ts' = clarification ts.
Proof.
  unfold dispatch. intros Hev Hd.
  apply bind_inr in Hd as (data & _ & Hd).
  destruct (String.eqb_spec ev "meta") as [->|_]; [contradiction |].
  destruct (String.eqb ev "delta").
  { apply bind_inr in Hd as (cm & _ & Hd). apply bind_inr in Hd as (f & _ & Hd).
    now injection Hd as <-. }
  destruct (String.eqb ev "citations").
  { apply bind_inr in Hd as (cm & _ & Hd). now injection Hd as <-. }
  now injection Hd as <-.
Qed.

Lemma run_events_other_flag (i : nat) (evs : list (string * string))
    (ts ts' : TurnState) :
  Forall (fun e => fst e <> "meta") evs ->
  run_events (dispatch i) evs ts = Normal ts' ->
  clarification ts' = clarification ts.
Proof.
  intros Hevs. revert ts. induction Hevs as [|[ev d] evs Hev _ IH]; intros ts Hrun.
  - now injection Hrun as <-.
  - cbn [run_events] in Hrun.
    destruct (dispatch i ev d ts) as [t|ts1] eqn:Hd; [discriminate |].
    rewrite (IH _ Hrun). eapply dispatch_other_flag; [exact Hev | exact Hd].
Qed.

(** A dispatched [delta] or [citations] event stamps the flag as it
    stands on the open message. *)
Lemma dispatch_stamps_flag (i : nat) (ev payload : string) (ts ts' : TurnState) :
  ev = "delta" \/ ev = "citations" ->
  dispatch i ev payload ts = inr ts' ->
  exists m, messages (chat ts') !! i = Some m /\
            isClarification m = Some (clarification ts).
Proof.
  unfold dispatch. intros Hev Hd.
  apply bind_inr in Hd as (data & _ & Hd).
  destruct Hev as [-> | ->]; cbn [String.eqb Ascii.eqb Bool.eqb andb] in Hd.
  - apply bind_inr in Hd as (cm & Hcm & Hd). apply bind_inr in Hd as (f & _ & Hd).
    apply openMessage_inr in Hcm. injection Hd as <-.
    eexists. split;
      [cbn [chat]; unfold replaceMessage; cbn [messages withMessages];
       apply list_lookup_insert_eq; eapply lookup_lt_Some, Hcm
      | reflexivity].
  - apply bind_inr in Hd as (cm & Hcm & Hd).
    apply openMessage_inr in Hcm. injection Hd as <-.
    eexists. split;
      [cbn [chat]; unfold replaceMessage;
       cbn [messages withMessages withCurrentCitations];
       apply list_lookup_insert_eq; eapply lookup_lt_Some, Hcm
      | reflexivity].
Qed.

(** C7 (as the code has it): a meta event sets the flag of the turn to the
    boolean value of its own clarification indicator, whatever the flag
    was; when that value is true, every delta and citations event
    dispatched before the next meta event stamps isClarification = true on
    the open assistant message. *)
Theorem clarification_holds_until_next_meta (i : nat) (payload : string)
    (ts0 ts1 ts2 ts3 : TurnState) (evs : list (string * string))
    (ev d : string) :
  dispatch i "meta" payload ts0 = inr ts1 ->
  clarification ts1 = clarificationOf payload /\
  (clarificationOf payload = true ->
   Forall (fun e => fst e <> "meta") evs ->
   run_events (dispatch i) evs ts1 = Normal ts2 ->
   ev = "delta" \/ ev = "citations" ->
   dispatch i ev d ts2 = inr ts3 ->
   exists m, messages (chat ts3) !! i = Some m /\ isClarification m = Some true).
Proof.
  intros Hmeta.
  pose proof (dispatch_meta_flag _ _ _ _ Hmeta) as H1.
  split; [exact H1 |]. intros Hclar Hevs Hrun Hev Hd.
  destruct (dispatch_stamps_flag _ _ _ _ _ Hev Hd) as (m & Hm & Hc).
  exists m. split; [exact Hm |].
  rewrite Hc, (run_events_other_flag _ _ _ _ Hevs Hrun), H1, Hclar. reflexivity.
Qed.
End Clarification.

Lemma clarification_holds_until_next_meta_witness :
  let ts0 := mkTurn (@openTurn sample_runtime "u1" "a1" typed) false in
  let ts1 := completed (run_events (@dispatch sample_runtime 1)
                          [("meta", payload_clarify)] ts0) in
  let ts2 := completed (run_events (@dispatch sample_runtime 1)
                          [("delta", payload_hi)] ts1) in
  let ts3 := completed (run_events (@dispatch sample_runtime 1)
                          [("citations", payload_citations)] ts2) in
  clarification ts1 = true /\
  exists m, messages (chat ts3) !! 1 = Some m /\ isClarification m = Some true.
Proof.
  intros ts0 ts1 ts2 ts3.
  destruct (@clarification_holds_until_next_meta sample_runtime 1 payload_clarify
              ts0 ts1 ts2 ts3 [("delta", payload_hi)] "citations" payload_citations
              eq_refl) as [Hflag Hstamp].
  split; [exact Hflag |]. apply Hstamp.
  - reflexivity.
  - constructor; [cbn; discriminate | constructor].
  - reflexivity.
  - right. reflexivity.
  - reflexivity.
Defined.

(** C7 (as stated, refuted): a meta event carrying a true indicator, then
    a meta event without one, then a delta event: the delta stamps
    isClarification = false. *)
Lemma later_meta_resets_clarification :
  let ts0 := mkTurn (@openTurn sample_runtime "u1" "a1" typed) false in
  let evs := [("meta", payload_clarify); ("meta", payload_empty);
              ("delta", payload_hi)] in
  @clarificationOf sample_runtime payload_clarify = true /\
  exists ts m,
    run_events (@dispatch sample_runtime 1) evs ts0 = Normal ts /\
    messages (chat ts) !! 1 = Some m /\
    content m = "Hi" /\ isClarification m = Some false.
Proof. vm_compute. split; [reflexivity |]. eexists _, _. repeat split; reflexivity. Qed.

(* ================================================================== *)
(** ** A payload that does not parse *)

Section ParseFailure.
Context `{JsRuntime}.

Lemma dispatch_parse_failure (i : nat) (ev bad : string) (t : Thrown)
    (ts : TurnState) :
  JSON_parse bad = inl t -> dispatch i ev bad ts = inl t.
Proof. intros Hp. unfold dispatch. now rewrite Hp. Qed.

(** C4 (as the code has it): a payload that fails to parse ends the event
    loop of the turn.  The events decoded before it have been dispatched,
    no event after it is, and the [catch] clause of the turn records the
    error and overwrites the content of the open assistant message with the
    failure string. *)
Theorem malformed_payload_aborts_turn (i : nat) (values : list string)
    (e : ReadEnd) (ts ts1 : TurnState) (evs1 evs2 : list (string * string))
    (ev bad : string) (t : Thrown) :
  decoded_events values = evs1 ++ (ev, bad) :: evs2 ->
  run_events (dispatch i) evs1 ts = Normal ts1 ->
  JSON_parse bad = inl t ->
  read_all (dispatch i) (mkReader values e) ts = Abrupt t ts1 /\
  error (submit_catch i t (chat ts1)) = Some (messageOf "Unknown error" t) /\
  forall m, messages (chat ts1) !! i = Some m ->
            messages (submit_catch i t (chat ts1)) !! i
            = Some (setContent FAILURE_TEXT m).
Proof.
  intros Hdec Hrun Hbad. split; [| split].
  - unfold read_all. cbn [chunks].
    rewrite read_loop_run, <- decoded_events_chunks, Hdec, run_events_app, Hrun.
    cbn [run_events]. now rewrite (dispatch_parse_failure _ _ _ _ _ Hbad).
  - reflexivity.
  - intros m Hm. unfold submit_catch. cbn [messages withMessages withError].
    now rewrite list_lookup_alter_eq, Hm.
Qed.
End ParseFailure.

Lemma malformed_payload_aborts_turn_witness :
  let ts := mkTurn (@openTurn sample_runtime "u1" "a1" typed) false in
  let ts1 := completed (run_events (@dispatch sample_runtime 1)
                          [("delta", payload_hi)] ts) in
  let values := [render_frames [("delta", payload_hi); ("delta", "nope")];
                 render_frames [("delta", payload_there)]] in
  let t := ThrownError "Unexpected token in JSON" in
  @read_all _ (@dispatch sample_runtime 1) (mkReader values ReadDone) ts = Abrupt t ts1 /\
  error (@submit_catch 1 t (chat ts1)) = Some "Unexpected token in JSON" /\
  forall m, messages (chat ts1) !! 1 = Some m ->
            messages (@submit_catch 1 t (chat ts1)) !! 1
            = Some (setContent FAILURE_TEXT m).
Proof.
  intros ts ts1 values t.
  apply (@malformed_payload_aborts_turn sample_runtime 1 values ReadDone ts ts1
           [("delta", payload_hi)] [("delta", payload_there)] "delta" "nope" t).
  - vm_compute. reflexivity.
  - vm_compute. reflexivity.
  - reflexivity.
Defined.

(** C4 (as stated, refuted): in a stream whose first event has the
    malformed payload [nope] and whose second event is a well-formed delta,
    the second event is decoded but never dispatched: the loop ends with
    the state untouched and the turn ends with the failure string. *)
Lemma malformed_payload_stops_dispatch :
  let frames := [("delta", "nope"); ("delta", payload_hi)] in
  let reader := mkReader [render_frames frames] ReadDone in
  let ts0 := mkTurn (@openTurn sample_runtime "u1" "a1" typed) false in
  let s' := @submit sample_runtime "u1" "a1" (CreateRejected ThrownValue)
              (AskResponse 200 (Some reader)) typed in
  decoded_events (chunks reader) = frames /\
  @read_all _ (@dispatch sample_runtime 1) reader ts0
  = Abrupt (ThrownError "Unexpected token in JSON") ts0 /\
  messages s' = [mkMessage "u1" user "hello" None None;
                 mkMessage "a1" assistant FAILURE_TEXT (Some []) (Some false)] /\
  error s' = Some "Unexpected token in JSON".
Proof. vm_compute. repeat split; reflexivity. Qed.

(* ================================================================== *)
(** ** A turn whose transport fails *)

Section FailedTurn.
Context `{JsRuntime}.

Lemma open_message_alter (f : Message -> Message) (l : list Message)
    (u a0 : Message) :
  alter f (S (length l)) (l ++ [u; a0]) = l ++ [u; f a0].
Proof.
  apply list_eq. intros j. rewrite list_lookup_alter.
  destruct (decide (S (length l) = j)) as [<- | Hne].
  - rewrite !open_message_lookup. reflexivity.
  - destruct (decide (j < length l)) as [Hlt | Hge].
    + now rewrite !lookup_app_l by exact Hlt.
    + rewrite !lookup_app_r by lia.
      destruct (j - length l) as [|[|k]] eqn:Hk; try reflexivity. lia.
Qed.

(** A turn that fails before any event is dispatched reaches its [catch]
    clause with the messages as they were pushed. *)
Lemma submit_try_fails_early (i : nat) (c : CreateOutcome) (a : AskOutcome)
    (s s0 : ChatState) :
  conversationId s0 = conversationId s ->
  failsBeforeEvents c a s = true ->
  exists t s1, submit_try i c a s0 = Abrupt t (mkTurn s1 false) /\
               messages s1 = messages s0.
Proof.
  intros Hc Hf. unfold failsBeforeEvents in Hf. unfold submit_try.
  pose proof (ensureConversation_outcome c s s0 Hc) as Hout.
  pose proof (ensureConversation_same c s0) as (Hms & _).
  destruct (ensureConversation c s) as [s1|t s1];
    destruct (ensureConversation c s0) as [s1'|t' s1']; try contradiction;
    cbn [completed] in Hms; [| eauto].
  destruct a as [t|status [r|]]; [eauto | |].
  - destruct (negb (status_ok status)); [eauto |]. cbn [orb] in Hf.
    unfold read_all. rewrite read_loop_run, <- decoded_events_chunks.
    destruct (ending r) as [|t]; [discriminate |].
    destruct (decoded_events (chunks r)); [| discriminate].
    cbn [run_events]. eauto.
  - destruct (negb (status_ok status)); eauto.
Qed.

(** C5: a turn always ends with the loading flag cleared; and when its
    transport fails before any event is dispatched (conversation not
    created, rejected request, non-success status, absent body, or a read
    rejected before a first event), the error state is populated and the
    assistant message holds the fixed failure string and no citation. *)
Theorem failed_turn_shows_failure (id1 id2 : string) (c : CreateOutcome)
    (a : AskOutcome) (s : ChatState) :
  nonempty (String_trim (input s)) = true -> isLoading s = false ->
  let s' := submit id1 id2 c a s in
  isLoading s' = false /\
  (failsBeforeEvents c a s = true ->
   (exists msg, error s' = Some msg) /\
   messages s' = messages s ++
     [mkMessage id1 user (String_trim (input s)) None None;
      mkMessage id2 assistant FAILURE_TEXT (Some []) (Some false)]).
Proof.
  intros Hq Hl s'. subst s'. rewrite submit_unfold by assumption.
  split; [reflexivity |]. intros Hf.
  destruct (submit_try_fails_early (S (length (messages s))) c a s
              (openTurn id1 id2 s) eq_refl Hf) as (t & s1 & -> & Hms).
  cbn [chat]. split; [eexists; reflexivity |].
  unfold submit_catch. cbn [messages withLoading withMessages withError].
  rewrite Hms. cbn [openTurn messages]. apply open_message_alter.
Qed.
End FailedTurn.

Lemma failed_turn_shows_failure_witness :
  let s' := @submit sample_runtime "u1" "a1" (CreateRejected ThrownValue)
              (AskResponse 503 None) typed in
  isLoading s' = false /\
  (exists msg, error s' = Some msg) /\
  messages s' = [] ++
    [mkMessage "u1" user "hello" None None;
     mkMessage "a1" assistant FAILURE_TEXT (Some []) (Some false)].
Proof.
  destruct (@failed_turn_shows_failure sample_runtime "u1" "a1"
              (CreateRejected ThrownValue) (AskResponse 503 None) typed
              eq_refl eq_refl) as [Hloading Hfailed].
  split; [exact Hloading | apply Hfailed; reflexivity].
Defined.

(** The failure cases, evaluated: a non-success status, an absent body and
    a read rejected at once each leave the failure string and their own
    error message. *)
Example failed_turn_cases :
  let run a := @submit sample_runtime "u1" "a1" (CreateRejected ThrownValue) a typed in
  let failed := [mkMessage "u1" user "hello" None None;
                 mkMessage "a1" assistant FAILURE_TEXT (Some []) (Some false)] in
  (messages (run (AskResponse 503 None)) = failed /\
   error (run (AskResponse 503 None)) = Some "API error: 503") /\
  (messages (run (AskResponse 200 None)) = failed /\
   error (run (AskResponse 200 None)) = Some "No response body") /\
  (messages (run (AskResponse 200 (Some (mkReader [] (ReadThrows ThrownValue))))) = failed /\
   error (run (AskResponse 200 (Some (mkReader [] (ReadThrows ThrownValue)))))
   = Some "Unknown error").
Proof. vm_compute. repeat split; reflexivity. Qed.

(* ================================================================== *)
(** ** Restoring a conversation *)

Section Restore.
Context `{JsRuntime}.

Lemma find_skip (p : Message -> bool) (l l' : list Message) :
  Forall (fun x => p x = false) l -> List.find p (l ++ l') = List.find p l'.
Proof.
  induction 1 as [|x l Hx _ IH]; [reflexivity |].
  cbn [app List.find]. now rewrite Hx.
Qed.

(** Scanning the reversed timeline finds the last message that satisfies
    the test. *)
Lemma find_rev_latest (p : Message -> bool) (older newer : list Message)
    (m : Message) :
  p m = true -> Forall (fun x => p x = false) newer ->
  List.find p (rev (older ++ m :: newer)) = Some m.
Proof.
  intros Hm Hnewer. rewrite rev_app_distr. cbn [rev].
  rewrite <- List.app_assoc, find_skip by (now apply Forall_rev).
  cbn [app List.find]. now rewrite Hm.
Qed.

Lemma find_rev_none (p : Message -> bool) (l : list Message) :
  Forall (fun x => p x = false) l -> List.find p (rev l) = None.
Proof.
  intros Hl. rewrite <- (app_nil_r (rev l)), find_skip by (now apply Forall_rev).
  reflexivity.
Qed.

Lemma status_ok_not_404 (status : Z) :
  status_ok status = true -> (status =? 404)%Z = false.
Proof. unfold status_ok. intros Hok. apply andb_true_iff in Hok. lia. Qed.

(** C6: when the history request of restore is answered with status 404
    for a persisted identity, the persisted identity and the in-memory
    conversationId are cleared, the message timeline is left as it was
    (empty when restore runs, as it does, on a session just mounted) and
    the error state is not written. *)
Theorem restore_not_found_clears_identity (s : ChatState) (saved : string)
    (json : Thrown + ConversationListResponse) :
  hasWindow s = true ->
  stored s = Some saved ->
  nonempty saved = true ->
  let s' := restoreConversationMessages (HistoryResponse 404 json) s in
  stored s' = None /\ conversationId s' = None /\
  messages s' = messages s /\ error s' = error s /\
  (messages s = [] -> messages s' = []) /\
  (error s = None -> error s' = None).
Proof.
  intros Hw Hs Hn. unfold restoreConversationMessages.
  rewrite Hw, Hs, Hn. cbn.
  unfold persistConversationId. rewrite Hw. cbn. tauto.
Qed.

(** C8: after a successful restore the timeline is the fetched page; the
    last assistant message of the page that has a citation supplies the
    current citations and, its citations being objects, its first citation
    is the selected one; when the page has no such message both are left
    as they were. *)
Theorem restore_selects_latest_cited (s : ChatState) (saved : string)
    (status : Z) (payload : ConversationListResponse) :
  hasWindow s = true ->
  stored s = Some saved ->
  nonempty saved = true ->
  status_ok status = true ->
  let s' := restoreConversationMessages (HistoryResponse status (inr payload)) s in
  let page := map toMessage (list_messages payload) in
  messages s' = page /\
  (forall older m newer c cs,
     page = older ++ m :: newer ->
     role m = assistant -> citations m = Some (c :: cs) ->
     Forall (fun x => citedAssistant x = false) newer ->
     currentCitations s' = c :: cs /\
     (truthy c = true -> selectedCitation s' = Some c)) /\
  (Forall (fun x => citedAssistant x = false) page ->
   currentCitations s' = currentCitations s /\
   selectedCitation s' = selectedCitation s).
Proof.
  intros Hw Hs Hn Hok s' page. subst s'. unfold restoreConversationMessages.
  rewrite Hw, Hs, Hn, (status_ok_not_404 _ Hok), Hok. cbn [negb].
  cbn [messages withMessages]. fold page. split; [| split].
  - destruct (List.find citedAssistant (rev page)) as [m|]; [| reflexivity].
    destruct (citations m); reflexivity.
  - intros older m newer c cs Hpage Hrole Hcit Hnewer.
    rewrite Hpage, find_rev_latest, Hcit; [| | exact Hnewer].
    + cbn. split; [reflexivity |]. now intros ->.
    + unfold citedAssistant. now rewrite Hrole, Hcit.
  - intros Hnone. now rewrite find_rev_none.
Qed.

(** C10 (as the code has it): when the history request of restore is
    rejected, answers with a status that is neither 404 nor a success, or
    gives a body that cannot be read (not JSON, or null), the session is
    left as it was except for the error message; when the body of a success
    answer is read but the mapping of its messages throws, the error
    message is set and the timeline and the citation state keep their
    values, but the identity, in memory and persisted, has already been
    replaced by the conversation_id of the body. *)
Theorem restore_failure_effects (h : HistoryOutcome) (s : ChatState) :
  let s' := restoreConversationMessages h s in
  (historyFails h = true ->
   (exists e, s' = withError e s) /\
   messages s' = messages s /\
   conversationId s' = conversationId s /\ stored s' = stored s /\
   currentCitations s' = currentCitations s /\
   selectedCitation s' = selectedCitation s) /\
  (forall status payload thrown cid saved,
     h = HistoryMalformed status payload thrown ->
     status_ok status = true ->
     getProp payload "conversation_id" = inr cid ->
     hasWindow s = true -> stored s = Some saved -> nonempty saved = true ->
     error s' = Some (messageOf "恢复会话失败" thrown) /\
     conversationId s' = Some cid /\
     stored s' = (if truthy cid then Some (asString cid) else None) /\
     messages s' = messages s /\
     currentCitations s' = currentCitations s /\
     selectedCitation s' = selectedCitation s).
Proof.
  intros s'. split.
  - intros Hf.
    assert (Hs : exists e, s' = withError e s).
    { subst s'. unfold restoreConversationMessages.
      assert (Hid : s = withError (error s) s) by (now destruct s).
      destruct (negb (hasWindow s)); [eauto |].
      destruct (stored s) as [saved|]; [| eauto].
      destruct (negb (nonempty saved)); [eauto |].
      destruct h as [t|status json|status payload thrown]; [eauto | |];
        cbn [historyFails] in Hf; apply andb_true_iff in Hf as [H404 Hf];
        apply negb_true_iff in H404; rewrite H404;
        (destruct (negb (status_ok status)); [eauto |]).
      + destruct json as [t|payload]; [eauto | discriminate].
      + destruct (getProp payload "conversation_id"); [eauto | discriminate]. }
    split; [exact Hs |]. destruct Hs as [e ->]. cbn. auto.
  - intros status payload thrown cid saved -> Hok Hcid Hw Hs Hn. subst s'.
    unfold restoreConversationMessages.
    rewrite Hw, Hs, Hn, (status_ok_not_404 _ Hok), Hok, Hcid. cbn.
    unfold persistConversationId. rewrite Hw. cbn.
    destruct (truthy cid); auto 10.
Qed.
End Restore.

Lemma restore_not_found_clears_identity_witness :
  let s' := @restoreConversationMessages sample_runtime
              (HistoryResponse 404 (inl ThrownValue)) mounted in
  stored s' = None /\ conversationId s' = None /\
  messages s' = [] /\ error s' = None.
Proof.
  destruct (@restore_not_found_clears_identity sample_runtime mounted "c-1"
              (inl ThrownValue) eq_refl eq_refl eq_refl)
    as (Hs & Hc & _ & _ & Hm & He).
  split; [exact Hs |]. split; [exact Hc |].
  split; [apply Hm; reflexivity | apply He; reflexivity].
Defined.

Lemma restore_selects_latest_cited_witness :
  let s' := @restoreConversationMessages sample_runtime
              (HistoryResponse 200 (inr sample_history)) mounted in
  messages s' = map toMessage (list_messages sample_history) /\
  currentCitations s' = [citation1; citation2] /\
  selectedCitation s' = Some citation1.
Proof.
  destruct (@restore_selects_latest_cited sample_runtime mounted "c-1" 200
              sample_history eq_refl eq_refl eq_refl eq_refl)
    as (Hpage & Hfound & _).
  split; [exact Hpage |].
  destruct (Hfound [toMessage (mkHistoryItem "m1" user "habits?" None None)]
              cited_message
              [toMessage (mkHistoryItem "m3" user "and?" None None);
               toMessage (mkHistoryItem "m4" assistant "Which book do you mean?"
                            None (Some true))]
              citation1 [citation2] eq_refl eq_refl eq_refl)
    as [Hcur Hsel].
  - repeat constructor.
  - split; [exact Hcur | apply Hsel; reflexivity].
Defined.

Lemma restore_failure_effects_witness :
  let early := @restoreConversationMessages sample_runtime
                 (HistoryResponse 500 (inl ThrownValue)) mounted in
  let late := @restoreConversationMessages sample_runtime
                (HistoryMalformed 200 malformed_history map_of_undefined) mounted in
  ((exists e, early = withError e mounted) /\
   conversationId early = None /\ stored early = Some "c-1") /\
  (error late = Some "Cannot read properties of undefined (reading 'map')" /\
   conversationId late = Some (JStr "c-9") /\ stored late = Some "c-9" /\
   messages late = [] /\ currentCitations late = [] /\ selectedCitation late = None).
Proof.
  intros early late. split.
  - destruct (@restore_failure_effects sample_runtime
                (HistoryResponse 500 (inl ThrownValue)) mounted) as [Hearly _].
    destruct (Hearly eq_refl) as (He & _ & Hc & Hst & _).
    split; [exact He |]. split; [exact Hc | exact Hst].
  - destruct (@restore_failure_effects sample_runtime
                (HistoryMalformed 200 malformed_history map_of_undefined) mounted)
      as [_ Hlate].
    destruct (Hlate 200%Z malformed_history map_of_undefined (JStr "c-9") "c-1"
                eq_refl eq_refl eq_refl eq_refl eq_refl eq_refl)
      as (He & Hc & Hst & Hm & Hcur & Hsel).
    split; [exact He |]. split; [exact Hc |]. split; [exact Hst |].
    split; [exact Hm |]. split; [exact Hcur | exact Hsel].
Defined.

(** C10 (as stated, refuted): a success answer whose body lacks its
    messages makes restore throw after the identity has been written: the
    error message is set and the identity held and persisted is no longer
    the one the session had. *)
Lemma restore_late_failure_changes_identity :
  let s' := @restoreConversationMessages sample_runtime
              (HistoryMalformed 200 malformed_history map_of_undefined) mounted in
  conversationId mounted = None /\ stored mounted = Some "c-1" /\
  error s' = Some "Cannot read properties of undefined (reading 'map')" /\
  conversationId s' = Some (JStr "c-9") /\ stored s' = Some "c-9".
Proof. vm_compute. repeat split; reflexivity. Qed.

(** The failure is visible in the error message only. *)
Example restore_failure_cases :
  @restoreConversationMessages sample_runtime
    (HistoryResponse 500 (inr sample_history)) mounted
  = withError (Some "加载历史会话失败: 500") mounted /\
  @restoreConversationMessages sample_runtime
    (HistoryRejected (ThrownError "Failed to fetch")) mounted
  = withError (Some "Failed to fetch") mounted /\
  @restoreConversationMessages sample_runtime
    (HistoryRejected ThrownValue) mounted
  = withError (Some "恢复会话失败") mounted.
Proof. vm_compute. repeat split; reflexivity. Qed.

(* ================================================================== *)
(** ** The selected citation *)

Section Selection.
Context `{JsRuntime}.

Lemma selectionScoped_same (s s' : ChatState) :
  sameButIdentity s s' -> selectionScoped s -> selectionScoped s'.
Proof.
  unfold selectionScoped. intros (_ & Hcur & _ & _ & _ & Hsel & _).
  now rewrite Hcur, Hsel.
Qed.

Lemma findCitation_In (n : float) (cs : list Citation) (c : Citation) :
  findCitation n cs = inr (Some c) -> In c cs.
Proof.
  induction cs as [|c0 cs IH]; cbn [findCitation]; [discriminate |].
  intros Hf. apply bind_inr in Hf as (v & _ & Hf).
  destruct (strictEqNumber v n).
  - injection Hf as ->. now left.
  - right. now apply IH.
Qed.

(** [submit] never writes [selectedCitation]. *)
Lemma submit_selected (id1 id2 : string) (c : CreateOutcome) (a : AskOutcome)
    (s : ChatState) :
  selectedCitation (submit id1 id2 c a s) = selectedCitation s.
Proof.
  destruct (nonempty (String_trim (input s))) eqn:Hq;
    [destruct (isLoading s) eqn:Hl |].
  - unfold submit. now rewrite Hq, Hl.
  - rewrite submit_unfold by assumption.
    pose proof (submit_try_frame (S (length (messages s))) c a (openTurn id1 id2 s))
      as (_ & _ & _ & Hsel & _).
    destruct (submit_try _ _ _ _) as [ts|t ts]; exact Hsel.
  - unfold submit. now rewrite Hq.
Qed.

Lemma restore_scoped (h : HistoryOutcome) (s : ChatState) :
  selectionScoped s -> selectionScoped (restoreConversationMessages h s).
Proof.
  intros Hs. unfold restoreConversationMessages.
  destruct (negb (hasWindow s)); [exact Hs |].
  destruct (stored s) as [saved|]; [| exact Hs].
  destruct (negb (nonempty saved)); [exact Hs |].
  destruct h as [t|status json|status payload thrown]; [exact Hs | |].
  2:{ destruct (status =? 404)%Z; [exact Hs |].
      destruct (negb (status_ok status)); [exact Hs |].
      destruct (getProp payload "conversation_id"); exact Hs. }
  destruct (status =? 404)%Z; [exact Hs |].
  destruct (negb (status_ok status)); [exact Hs |].
  destruct json as [t|payload]; [exact Hs |].
  cbn [messages withMessages].
  destruct (List.find citedAssistant _) as [m|]; [| exact Hs].
  destruct (citations m) as [cs|]; [| exact Hs].
  unfold selectionScoped, firstOrNull. cbn.
  destruct cs as [|c cs]; [exact I |]. destruct (truthy c); [now left | exact I].
Qed.

Lemma selectCitation_scoped (c : Citation) (s : ChatState) :
  In c (currentCitations s) -> selectionScoped (selectCitation c s).
Proof. intros Hc. unfold selectionScoped. destruct c; cbn; auto. Qed.

Lemma startNewConversation_scoped (c : CreateOutcome) (s : ChatState) :
  selectionScoped (startNewConversation c s).
Proof.
  unfold startNewConversation.
  pose proof (createConversation_same c (setConversationId None (clear s))) as Hsame.
  assert (Hs : selectionScoped (setConversationId None (clear s))) by exact I.
  destruct (createConversation c _) as [s'|t s']; cbn [completed] in Hsame.
  - eapply selectionScoped_same; eassumption.
  - apply (selectionScoped_same _ _ Hsame) in Hs. exact Hs.
Qed.

(** C9 (as the code has it): that selectedCitation is null or one of
    currentCitations holds in the initial state and is preserved by
    restore, clear, startNewConversation, a marker click and a click on a
    message that has citations; submit and a click on a message without
    citation replace currentCitations and never write selectedCitation, so
    they preserve it when no citation is selected. *)
Theorem selection_scoped_step (win : bool) (slot : option string)
    (op : Operation) (s : ChatState) :
  selectionScoped (initialState win slot) /\
  (selectionScoped s ->
   (leavesSelection op = true -> selectedCitation s = None) ->
   selectionScoped (perform op s) /\
   (leavesSelection op = true ->
    selectedCitation (perform op s) = selectedCitation s)).
Proof.
  split; [exact I |]. intros Hs Hnone.
  destruct op as [id1 id2 c a | h | | c | n | m]; cbn [perform leavesSelection] in *.
  - split; [| intros _; apply submit_selected].
    unfold selectionScoped. now rewrite submit_selected, Hnone.
  - split; [now apply restore_scoped | discriminate].
  - split; [exact I | discriminate].
  - split; [apply startNewConversation_scoped | discriminate].
  - split; [| discriminate]. unfold handleCitationClick.
    destruct (findCitation n (currentCitations s)) as [t|[c|]] eqn:Hf; try exact Hs.
    destruct (truthy c); [| exact Hs].
    apply findCitation_In in Hf. now apply selectCitation_scoped.
  - unfold handleMessageClick.
    destruct (citations m) as [[|c cs]|].
    + split; [| reflexivity]. unfold selectionScoped. cbn. now rewrite Hnone.
    + split; [| discriminate].
      apply (selectCitation_scoped c (withCurrentCitations (c :: cs) s)). now left.
    + split; [| reflexivity]. unfold selectionScoped. cbn. now rewrite Hnone.
Qed.
End Selection.

Lemma selection_scoped_step_witness :
  selectionScoped (initialState true None) /\
  selectionScoped (@perform sample_runtime (OpMessageClick cited_message) fresh_typed) /\
  selectionScoped (@perform sample_runtime
                     (OpSubmit "u1" "a1" (CreateRejected (ThrownError "Failed to fetch"))
                        (AskResponse 503 None)) fresh_typed).
Proof.
  destruct (@selection_scoped_step sample_runtime true None
              (OpMessageClick cited_message) fresh_typed) as [Hinit Hclick].
  destruct (@selection_scoped_step sample_runtime true None
              (OpSubmit "u1" "a1" (CreateRejected (ThrownError "Failed to fetch"))
                 (AskResponse 503 None)) fresh_typed) as [_ Hsubmit].
  split; [exact Hinit |]. split.
  - apply Hclick; [exact I | discriminate].
  - apply Hsubmit; [exact I | reflexivity].
Defined.

(** C9 (as stated, refuted): from the initial state with a query typed,
    after a click on a cited message, a click on a message without
    citation, and likewise a submit, empties currentCitations and keeps the
    selected citation. *)
Lemma selection_outlives_citations :
  let s1 := @perform sample_runtime (OpMessageClick cited_message) fresh_typed in
  let s2 := @perform sample_runtime (OpMessageClick plain_message) s1 in
  let s3 := @perform sample_runtime
              (OpSubmit "u1" "a1" (CreateRejected (ThrownError "Failed to fetch"))
                 (AskResponse 503 None))
              s1 in
  selectionScoped fresh_typed /\ selectionScoped s1 /\
  (selectedCitation s2 = Some citation1 /\ currentCitations s2 = [] /\
   ~ selectionScoped s2) /\
  (selectedCitation s3 = Some citation1 /\ currentCitations s3 = [] /\
   ~ selectionScoped s3).
Proof.
  cbv zeta. split; [exact I |]. split; [now left |].
  split; (split; [reflexivity |]; split; [reflexivity |]; intros []).
Qed.

(* ================================================================== *)
(** ** More on the decoder: lines, chunk boundaries, trailing text *)

Lemma split_nl_not_nil (s : string) : split_nl s <> [].
Proof.
  induction s as [|c s IH]; cbn [split_nl]; [discriminate |].
  destruct (Ascii.eqb c LF); [discriminate |].
  destruct (split_nl s); discriminate.
Qed.

Lemma split_nl_single (t : string) : no_newline t = true -> split_nl t = [t].
Proof.
  induction t as [|c t IH]; [reflexivity |]. cbn [no_newline split_nl].
  intros Ht. apply andb_true_iff in Ht as [Hc Ht]. apply negb_true_iff in Hc.
  now rewrite Hc, (IH Ht).
Qed.

Lemma split_nl_lines (s : string) :
  Forall (fun l => no_newline l = true) (split_nl s).
Proof.
  induction s as [|c s IH]; cbn [split_nl]; [repeat constructor |].
  destruct (Ascii.eqb c LF) eqn:Hc; [constructor; [reflexivity | exact IH] |].
  destruct (split_nl s) as [|l ls]; [repeat constructor; cbn; now rewrite Hc |].
  inversion IH as [|? ? Hl Hls]; subst.
  constructor; [cbn; now rewrite Hc, Hl | exact Hls].
Qed.

Lemma last_in_list {A : Type} (l : list A) (d : A) : l <> [] -> In (List.last l d) l.
Proof.
  induction l as [|x [|y l] IH]; intros Hl; [contradiction | now left |].
  right. apply IH. discriminate.
Qed.

(** What is held back in [buffer] has no newline. *)
Lemma last_split_no_newline (s : string) :
  no_newline (List.last (split_nl s) "") = true.
Proof.
  pose proof (split_nl_lines s) as Hall. rewrite Forall_forall in Hall.
  apply Hall, list_elem_of_In, last_in_list, split_nl_not_nil.
Qed.

Lemma last_app_nonempty {A : Type} (l1 l2 : list A) (d : A) :
  l2 <> [] -> List.last (l1 ++ l2) d = List.last l2 d.
Proof.
  intros Hl2. induction l1 as [|x l1 IH]; [reflexivity |].
  cbn [app]. destruct (l1 ++ l2) eqn:Heq; [| exact IH].
  apply app_eq_nil in Heq as [_ ->]. contradiction.
Qed.

(** Splitting a concatenation: the last line of the first text is glued
    to the first line of the second. *)
Lemma split_nl_app (a b : string) :
  split_nl (a +:+ b) =
  removelast (split_nl a) ++
    (List.last (split_nl a) "" +:+ hd "" (split_nl b)) :: tl (split_nl b).
Proof.
  induction a as [|c a IH].
  - cbn. destruct (split_nl b) eqn:Hb; [now apply split_nl_not_nil in Hb | reflexivity].
  - change (String c a +:+ b) with (String c (a +:+ b)). cbn [split_nl].
    destruct (Ascii.eqb c LF).
    + rewrite IH. pose proof (split_nl_not_nil a).
      destruct (split_nl a) as [|l ls]; [contradiction | reflexivity].
    + rewrite IH. pose proof (split_nl_not_nil a).
      destruct (split_nl a) as [|l [|x ls]]; [contradiction | reflexivity | reflexivity].
Qed.

(** The lines of [a +:+ v] are the complete lines of [a], then the lines
    of what [a] leaves in the buffer followed by [v]. *)
Lemma split_nl_resume (a v : string) :
  split_nl (a +:+ v) =
  removelast (split_nl a) ++ split_nl (List.last (split_nl a) "" +:+ v).
Proof.
  rewrite split_nl_app. f_equal.
  rewrite (split_nl_app (List.last (split_nl a) "") v).
  now rewrite (split_nl_single _ (last_split_no_newline a)).
Qed.

Lemma pending_buffer_no_newline (values : list string) (buffer : string) :
  no_newline buffer = true -> no_newline (pending_buffer values buffer) = true.
Proof.
  revert buffer. induction values as [|value rest IH]; intros buffer Hb; [exact Hb |].
  cbn [pending_buffer]. apply IH, last_split_no_newline.
Qed.

(** [pending_event] is the event type carried from one line to the next. *)
Lemma events_of_lines_app (l1 l2 : list string) (ce : string) :
  events_of_lines (l1 ++ l2) ce =
  events_of_lines l1 ce ++ events_of_lines l2 (pending_event l1 ce).
Proof.
  revert ce. induction l1 as [|line l1 IH]; intros ce; [reflexivity |].
  cbn [app events_of_lines pending_event].
  destruct (startsWith line "event: "); [apply IH |].
  destruct (startsWith line "data: "); [| apply IH].
  destruct (negb (nonempty ce) || negb (nonempty (slice 6 line))); [apply IH |].
  cbn [app]. f_equal. apply IH.
Qed.

(** [pending_buffer] is the buffer carried from one read to the next. *)
Lemma events_of_chunks_app (pre rest : list string) (buffer : string) :
  events_of_chunks (pre ++ rest) buffer =
  events_of_chunks pre buffer ++ events_of_chunks rest (pending_buffer pre buffer).
Proof.
  revert buffer. induction pre as [|value pre IH]; intros buffer; [reflexivity |].
  cbn [app events_of_chunks pending_buffer]. rewrite IH. apply List.app_assoc.
Qed.

Lemma slice_no_newline (n : nat) (s : string) :
  no_newline s = true -> no_newline (slice n s) = true.
Proof.
  revert s. induction n as [|n IH]; intros s Hs; [exact Hs |].
  destruct s as [|c s]; [reflexivity |]. cbn [slice]. apply IH.
  cbn [no_newline] in Hs. now apply andb_true_iff in Hs as [_ Hs].
Qed.

Lemma events_of_lines_ok (lines : list string) (ce : string) :
  Forall (fun l => no_newline l = true) lines -> no_newline ce = true ->
  Forall (fun e => frame_ok e = true) (events_of_lines lines ce).
Proof.
  intros Hlines. revert ce. induction Hlines as [|line lines Hl _ IH]; intros ce Hce.
  - constructor.
  - cbn [events_of_lines].
    destruct (startsWith line "event: "); [now apply IH, slice_no_newline |].
    destruct (startsWith line "data: "); [| now apply IH].
    destruct (negb (nonempty ce) || negb (nonempty (slice 6 line))) eqn:Hg;
      [now apply IH |].
    apply orb_false_iff in Hg as [Hne Hnd].
    apply negb_false_iff in Hne, Hnd.
    constructor; [| now apply IH].
    unfold frame_ok. cbn [fst snd].
    now rewrite Hne, Hce, Hnd, (slice_no_newline 6 line Hl).
Qed.

Lemma Forall_removelast {A : Type} (P : A -> Prop) (l : list A) :
  Forall P l -> Forall P (removelast l).
Proof.
  induction 1 as [|x l Hx Hl IH]; [constructor |].
  cbn [removelast]. destruct l; [constructor | now constructor].
Qed.

(** X1: whatever bytes arrive in whatever chunks, every event the loop
    decodes has a non-empty type and a non-empty payload, neither of which
    contains a newline. *)
Theorem decoded_events_are_frames (values : list string) :
  Forall (fun e => frame_ok e = true) (decoded_events values).
Proof.
  rewrite decoded_events_chunks. generalize "" at 1 as buffer.
  induction values as [|value rest IH]; intros buffer; [constructor |].
  cbn [events_of_chunks]. apply Forall_app. split; [| apply IH].
  apply events_of_lines_ok; [| reflexivity].
  apply Forall_removelast, split_nl_lines.
Qed.

(** One read of [u +:+ v] sees the lines of the read of [u] followed by
    those of the read of [v], and leaves the same buffer. *)
Lemma complete_lines_split (buffer u v : string) :
  complete_lines buffer (u +:+ v) =
  complete_lines buffer u
    ++ complete_lines (List.last (split_nl (buffer +:+ u)) "") v /\
  List.last (split_nl (buffer +:+ (u +:+ v))) "" =
  List.last (split_nl (List.last (split_nl (buffer +:+ u)) "" +:+ v)) "".
Proof.
  unfold complete_lines. rewrite <- string_app_assoc, split_nl_resume.
  split.
  - apply removelast_app, split_nl_not_nil.
  - apply last_app_nonempty, split_nl_not_nil.
Qed.

Lemma events_of_chunks_split (buffer u v : string) (rest : list string) :
  pending_event (complete_lines buffer u) "" = "" ->
  events_of_chunks (u :: v :: rest) buffer =
  events_of_chunks ((u +:+ v) :: rest) buffer.
Proof.
  intros Hpending. cbn [events_of_chunks].
  destruct (complete_lines_split buffer u v) as [Hlines Hlast].
  unfold complete_lines in Hlines, Hpending. rewrite Hlines, Hlast.
  rewrite events_of_lines_app, Hpending, <- List.app_assoc. reflexivity.
Qed.

(** X2: a chunk boundary that falls where no event type is pending (the
    lines completed so far in the read end with a dispatched, skipped or
    absent event) can be moved or removed: the two chunks decode to the
    same events as their concatenation read at once. *)
Theorem chunk_boundary_without_pending_event (pre rest : list string)
    (u v : string) :
  pending_event (complete_lines (pending_buffer pre "") u) "" = "" ->
  decoded_events (pre ++ u :: v :: rest) =
  decoded_events (pre ++ (u +:+ v) :: rest).
Proof.
  intros Hpending. rewrite !decoded_events_chunks, !events_of_chunks_app.
  f_equal. now apply events_of_chunks_split.
Qed.

Lemma complete_lines_no_newline (buffer u : string) :
  no_newline buffer = true -> no_newline u = true -> complete_lines buffer u = [].
Proof.
  intros Hb Hu. unfold complete_lines.
  now rewrite split_nl_single by (now apply no_newline_app).
Qed.

(** X3: a chunk that contains no newline (a piece of a line, or an empty
    chunk) decodes to nothing by itself and is read as the beginning of
    the next chunk. *)
Theorem chunk_without_newline_joins_next (pre rest : list string)
    (u v : string) :
  no_newline u = true ->
  decoded_events (pre ++ u :: v :: rest) =
  decoded_events (pre ++ (u +:+ v) :: rest).
Proof.
  intros Hu. rewrite !decoded_events_chunks, !events_of_chunks_app.
  f_equal. apply events_of_chunks_split.
  rewrite complete_lines_no_newline;
    [reflexivity | now apply pending_buffer_no_newline | exact Hu].
Qed.

(** X4: what follows the last newline of the last chunk is never decoded:
    appending newline-free text to the last chunk, or as a last chunk of
    its own, adds no event. *)
Theorem trailing_text_is_discarded (pre : list string) (u t : string) :
  no_newline t = true ->
  decoded_events (pre ++ [u +:+ t]) = decoded_events (pre ++ [u]) /\
  decoded_events (pre ++ [t]) = decoded_events pre.
Proof.
  intros Ht. rewrite !decoded_events_chunks, !events_of_chunks_app. split.
  - f_equal. cbn [events_of_chunks]. f_equal.
    destruct (complete_lines_split (pending_buffer pre "") u t) as [Hlines _].
    unfold complete_lines in Hlines. rewrite Hlines.
    fold (complete_lines (List.last (split_nl (pending_buffer pre "" +:+ u)) "") t).
    rewrite complete_lines_no_newline, app_nil_r;
      [reflexivity | apply last_split_no_newline | exact Ht].
  - cbn [events_of_chunks].
    fold (complete_lines (pending_buffer pre "") t).
    rewrite complete_lines_no_newline;
      [now rewrite !app_nil_r | now apply pending_buffer_no_newline | exact Ht].
Qed.

Lemma chunk_boundary_without_pending_event_witness :
  let pre := [render_frames [("meta", payload_empty)] +:+ "event: de"] in
  let u := "lta" +:+ nl +:+ "data: " +:+ payload_hi +:+ nl in
  let v := nl +:+ render_frames [("delta", payload_there)] in
  decoded_events (pre ++ u :: v :: []) = decoded_events (pre ++ (u +:+ v) :: []) /\
  decoded_events (pre ++ u :: v :: [])
  = [("meta", payload_empty); ("delta", payload_hi); ("delta", payload_there)].
Proof.
  intros pre u v. split; [| vm_compute; reflexivity].
  apply (chunk_boundary_without_pending_event pre [] u v).
  vm_compute. reflexivity.
Defined.

Lemma chunk_without_newline_joins_next_witness :
  decoded_events ([] ++ "event: de" :: ("lta" +:+ nl +:+ "data: 1" +:+ nl) :: [])
  = decoded_events ([] ++ ("event: de" +:+ "lta" +:+ nl +:+ "data: 1" +:+ nl) :: []).
Proof.
  apply (chunk_without_newline_joins_next [] [] "event: de"
           ("lta" +:+ nl +:+ "data: 1" +:+ nl)).
  reflexivity.
Defined.

Lemma trailing_text_is_discarded_witness :
  let frame := render_frames [("delta", payload_hi)] in
  decoded_events ([] ++ [frame +:+ "event: delta"]) = decoded_events ([] ++ [frame]) /\
  decoded_events ([frame] ++ ["data: 1"]) = decoded_events [frame].
Proof.
  intros frame.
  destruct (trailing_text_is_discarded [] frame "event: delta" eq_refl) as [Hu _].
  destruct (trailing_text_is_discarded [frame] "" "data: 1" eq_refl) as [_ Ht].
  split; [exact Hu | exact Ht].
Defined.

(* ================================================================== *)
(** ** The outcome of a started turn *)

Section TurnOutcome.
Context `{JsRuntime}.

Lemma turnShape_same (before : list Message) (u : Message) (id2 : string)
    (s s' : ChatState) :
  messages s' = messages s -> currentCitations s' = currentCitations s ->
  turnShape before u id2 s -> turnShape before u id2 s'.
Proof. unfold turnShape. intros -> ->. exact id. Qed.

Lemma dispatch_turnShape (before : list Message) (u : Message) (id2 : string)
    (ev payload : string) (ts ts' : TurnState) :
  turnShape before u id2 (chat ts) ->
  dispatch (S (length before)) ev payload ts = inr ts' ->
  turnShape before u id2 (chat ts').
Proof.
  intros Hshape Hd. pose proof Hshape as (m & Hms & Hid & Hr & Hc & Hcl).
  assert (Hm : messages (chat ts) !! S (length before) = Some m)
    by (rewrite Hms; apply open_message_lookup).
  unfold dispatch in Hd. apply bind_inr in Hd as (data & _ & Hd).
  destruct (String.eqb ev "meta").
  { apply bind_inr in Hd as (cid & _ & Hd). apply bind_inr in Hd as (nc & _ & Hd).
    injection Hd as <-. cbn [chat]. destruct (truthy cid); [| exact Hshape].
    eapply turnShape_same; [| | exact Hshape]; reflexivity. }
  destruct (String.eqb ev "delta").
  { apply bind_inr in Hd as (cm & Hcm & Hd). apply bind_inr in Hd as (f & _ & Hd).
    apply openMessage_inr in Hcm. rewrite Hm in Hcm. injection Hcm as <-.
    injection Hd as <-. eexists. cbn [chat]. unfold replaceMessage.
    cbn [messages withMessages currentCitations]. rewrite Hms, open_message_insert.
    split; [reflexivity |]. cbn [msg_id role citations isClarification]. eauto. }
  destruct (String.eqb ev "citations").
  { apply bind_inr in Hd as (cm & Hcm & Hd).
    apply openMessage_inr in Hcm. rewrite Hm in Hcm. injection Hcm as <-.
    injection Hd as <-. eexists. cbn [chat]. unfold replaceMessage.
    cbn [messages withMessages withCurrentCitations currentCitations].
    rewrite Hms, open_message_insert.
    split; [reflexivity |]. cbn [msg_id role citations isClarification]. eauto. }
  injection Hd as <-. exact Hshape.
Qed.

Lemma run_events_turnShape (before : list Message) (u : Message) (id2 : string)
    (evs : list (string * string)) (ts : TurnState) :
  turnShape before u id2 (chat ts) ->
  turnShape before u id2
    (chat (completed (run_events (dispatch (S (length before))) evs ts))).
Proof.
  revert ts. induction evs as [|[ev payload] evs IH]; intros ts Hshape; [exact Hshape |].
  cbn [run_events].
  destruct (dispatch _ ev payload ts) as [t|ts1] eqn:Hd; [exact Hshape |].
  apply IH. eapply dispatch_turnShape; eassumption.
Qed.

Lemma submit_try_turnShape (before : list Message) (u : Message) (id2 : string)
    (c : CreateOutcome) (a : AskOutcome) (s : ChatState) :
  turnShape before u id2 s ->
  turnShape before u id2
    (chat (completed (submit_try (S (length before)) c a s))).
Proof.
  intros Hshape. unfold submit_try.
  pose proof (ensureConversation_same c s) as (Hms & Hcur & _).
  assert (Hs1 : turnShape before u id2 (completed (ensureConversation c s)))
    by (eapply turnShape_same; eassumption).
  destruct (ensureConversation c s) as [s1|t s1]; cbn [completed] in Hs1;
    [| exact Hs1].
  destruct a as [t|status [r|]]; cbn [completed chat]; try exact Hs1.
  - destruct (negb (status_ok status)); cbn [completed chat]; [exact Hs1 |].
    rewrite completed_read_all. now apply run_events_turnShape.
  - destruct (negb (status_ok status)); exact Hs1.
Qed.

(** Everything a started turn leaves behind, whatever its transport does. *)
Lemma submit_outcome (id1 id2 : string) (c : CreateOutcome) (a : AskOutcome)
    (s : ChatState) :
  nonempty (String_trim (input s)) = true -> isLoading s = false ->
  let s' := submit id1 id2 c a s in
  exists m,
    messages s' = messages s ++
      [mkMessage id1 user (String_trim (input s)) None None; m] /\
    msg_id m = id2 /\ role m = assistant /\
    citations m = Some (currentCitations s') /\
    is_Some (isClarification m) /\
    input s' = "" /\ isLoading s' = false /\
    (error s' = None \/
     (exists msg, error s' = Some msg) /\ content m = FAILURE_TEXT).
Proof.
  intros Hq Hl s'. subst s'. rewrite submit_unfold by assumption.
  set (u := mkMessage id1 user (String_trim (input s)) None None).
  assert (Hopen : turnShape (messages s) u id2 (openTurn id1 id2 s)).
  { eexists. split; [reflexivity |]. cbn. eauto. }
  pose proof (submit_try_turnShape _ _ _ c a _ Hopen) as (m & Hms & Hid & Hr & Hc & Hcl).
  pose proof (submit_try_frame (S (length (messages s))) c a (openTurn id1 id2 s))
    as (Hin & _ & Herr & _).
  destruct (submit_try _ _ _ _) as [ts|t ts]; cbn [completed] in *.
  - exists m. cbn [messages withLoading currentCitations input isLoading error].
    rewrite Hin, Herr. auto 10.
  - exists (setContent FAILURE_TEXT m).
    unfold submit_catch.
    cbn [messages withLoading withMessages withError currentCitations input
         isLoading error].
    rewrite Hms, open_message_alter, Hin. cbn [setContent msg_id role citations
      isClarification content]. repeat (split; [first [assumption | reflexivity] |]).
    right. eauto.
Qed.

(** X5: a started turn, however its transport ends, appends exactly the
    user message (the trimmed input) and one assistant message to the
    timeline and leaves every earlier message untouched, empties the input
    and ends with the loading flag cleared; whenever it ends with the error
    state set, even after text has been streamed, the content of the
    assistant message is the fixed failure string. *)
Theorem turn_appends_two_messages (id1 id2 : string) (c : CreateOutcome)
    (a : AskOutcome) (s : ChatState) :
  nonempty (String_trim (input s)) = true -> isLoading s = false ->
  let s' := submit id1 id2 c a s in
  exists m,
    messages s' = messages s ++
      [mkMessage id1 user (String_trim (input s)) None None; m] /\
    msg_id m = id2 /\ role m = assistant /\
    input s' = "" /\ isLoading s' = false /\
    (error s' = None \/
     (exists msg, error s' = Some msg) /\ content m = FAILURE_TEXT).
Proof.
  intros Hq Hl s'.
  destruct (submit_outcome id1 id2 c a s Hq Hl)
    as (m & Hms & Hid & Hr & _ & _ & Hin & Hld & Herr).
  exists m. auto 10.
Qed.

(** X6: at the end of a started turn, however it ends, the citation list
    of its assistant message is the current citation list, so the citation
    panel is shown exactly when that message has a citation. *)
Theorem turn_citations_are_current (id1 id2 : string) (c : CreateOutcome)
    (a : AskOutcome) (s : ChatState) :
  nonempty (String_trim (input s)) = true -> isLoading s = false ->
  let s' := submit id1 id2 c a s in
  exists m,
    messages s' !! S (length (messages s)) = Some m /\
    citations m = Some (currentCitations s') /\
    (showCitationPanel s' = true <-> exists x xs, citations m = Some (x :: xs)).
Proof.
  intros Hq Hl s'.
  destruct (submit_outcome id1 id2 c a s Hq Hl) as (m & Hms & _ & _ & Hc & _).
  exists m. fold s' in Hms, Hc. split; [rewrite Hms; apply open_message_lookup |].
  split; [exact Hc |]. rewrite Hc. unfold showCitationPanel.
  destruct (currentCitations s') as [|x xs]; split.
  - discriminate.
  - intros (x & xs & Hx). discriminate.
  - eauto.
  - reflexivity.
Qed.

(** X7: a click on an example question overwrites the input box with the
    example and submits it: the turn's user message is the trimmed example,
    whatever had been typed; when the example is blank or a turn is
    loading, the only effect is that the input box holds the example. *)
Theorem example_click_submits_example (example id1 id2 : string)
    (c : CreateOutcome) (a : AskOutcome) (s : ChatState) :
  let s' := handleExampleClick example id1 id2 c a s in
  (nonempty (String_trim example) = false \/ isLoading s = true ->
   s' = withInput example s) /\
  (nonempty (String_trim example) = true -> isLoading s = false ->
   exists m, messages s' = messages s ++
               [mkMessage id1 user (String_trim example) None None; m] /\
             role m = assistant /\ input s' = "").
Proof.
  intros s'. subst s'. unfold handleExampleClick. split.
  - intros Hg. unfold submit. cbn [input isLoading withInput].
    destruct Hg as [-> | ->]; [reflexivity | now rewrite orb_true_r].
  - intros Hq Hl.
    destruct (submit_outcome id1 id2 c a (withInput example s) Hq Hl)
      as (m & Hms & _ & Hr & _ & _ & Hin & _).
    exists m. auto.
Qed.
End TurnOutcome.

Lemma turn_appends_two_messages_witness :
  let frames := [("delta", payload_hi); ("citations", payload_citations);
                 ("delta", "nope")] in
  let s' := @submit sample_runtime "u1" "a1" (CreateRejected ThrownValue)
              (AskResponse 200 (Some (mkReader [render_frames frames] ReadDone)))
              typed in
  exists m,
    messages s' = [] ++ [mkMessage "u1" user "hello" None None; m] /\
    msg_id m = "a1" /\ role m = assistant /\
    input s' = "" /\ isLoading s' = false /\ content m = FAILURE_TEXT.
Proof.
  intros frames s'.
  destruct (@turn_appends_two_messages sample_runtime "u1" "a1"
              (CreateRejected ThrownValue)
              (AskResponse 200 (Some (mkReader [render_frames frames] ReadDone)))
              typed eq_refl eq_refl)
    as (m & Hms & Hid & Hr & Hin & Hl & [Hnone | [_ Hc]]).
  - vm_compute in Hnone. discriminate.
  - exists m. auto 10.
Defined.

Lemma turn_citations_are_current_witness :
  let frames := [("delta", payload_hi); ("citations", payload_citations);
                 ("delta", "nope")] in
  let s' := @submit sample_runtime "u1" "a1" (CreateRejected ThrownValue)
              (AskResponse 200 (Some (mkReader [render_frames frames] ReadDone)))
              typed in
  currentCitations s' = [citation1] /\
  exists m,
    messages s' !! 1 = Some m /\
    citations m = Some (currentCitations s') /\
    (showCitationPanel s' = true <-> exists x xs, citations m = Some (x :: xs)).
Proof.
  intros frames s'. split; [vm_compute; reflexivity |].
  apply (@turn_citations_are_current sample_runtime "u1" "a1"
           (CreateRejected ThrownValue)
           (AskResponse 200 (Some (mkReader [render_frames frames] ReadDone)))
           typed eq_refl eq_refl).
Defined.

(* ================================================================== *)
(** ** Events in sequence *)

Section EventSequences.
Context `{JsRuntime}.

(** X8: a turn on a session that holds a conversation identity does not
    depend on the outcome of the creation request: none is made. *)
Theorem held_identity_skips_creation (id1 id2 : string) (c c' : CreateOutcome)
    (a : AskOutcome) (s : ChatState) (v : jsval) :
  conversationId s = Some v -> truthy v = true ->
  submit id1 id2 c a s = submit id1 id2 c' a s.
Proof.
  intros Hc Hv. unfold submit.
  destruct (negb (nonempty (String_trim (input s))) || isLoading s); [reflexivity |].
  unfold submit_try, ensureConversation.
  cbn [conversationId withMessages withInput withLoading withError
       withCurrentCitations].
  now rewrite Hc, Hv.
Qed.

Lemma dispatch_unknown (i : nat) (ev payload : string) (data : jsval)
    (ts : TurnState) :
  knownEvent ev = false -> JSON_parse payload = inr data ->
  dispatch i ev payload ts = inr ts.
Proof.
  unfold knownEvent, dispatch. intros Hk Hp.
  apply orb_false_iff in Hk as [Hk Hc]. apply orb_false_iff in Hk as [Hm Hd].
  rewrite Hp. cbn [mbind thrown_bind]. now rewrite Hm, Hd, Hc.
Qed.

(** X9: events of a type other than meta, delta and citations whose
    payload parses have no effect: dropping them from the sequence of
    decoded events does not change what the dispatcher computes. *)
Theorem unknown_events_are_ignored (i : nat) (evs : list (string * string))
    (ts : TurnState) :
  Forall (fun e => knownEvent (fst e) = false ->
                   exists data, JSON_parse (snd e) = inr data) evs ->
  run_events (dispatch i) (List.filter (fun e => knownEvent (fst e)) evs) ts
  = run_events (dispatch i) evs ts.
Proof.
  intros Hevs. revert ts. induction Hevs as [|[ev payload] evs He _ IH]; intros ts.
  - reflexivity.
  - cbn [List.filter fst]. cbn [fst snd] in He.
    destruct (knownEvent ev) eqn:Hk.
    + cbn [run_events]. destruct (dispatch i ev payload ts); [reflexivity | apply IH].
    + destruct (He eq_refl) as [data Hp]. cbn [run_events].
      rewrite (dispatch_unknown _ _ _ _ _ Hk Hp). apply IH.
Qed.

(** X10: a citations event that follows another replaces its citation
    list wholesale: dispatching both gives the state that dispatching the
    second alone gives. *)
Theorem later_citations_replace_earlier (i : nat) (p1 p2 : string)
    (ts ts1 ts2 : TurnState) :
  dispatch i "citations" p1 ts = inr ts1 ->
  dispatch i "citations" p2 ts1 = inr ts2 ->
  dispatch i "citations" p2 ts = inr ts2.
Proof.
  unfold dispatch. intros H1 H2.
  apply bind_inr in H1 as (d1 & _ & H1). apply bind_inr in H2 as (d2 & -> & H2).
  cbn [String.eqb Ascii.eqb Bool.eqb andb mbind thrown_bind] in *.
  apply bind_inr in H1 as (m & Hm & H1). apply bind_inr in H2 as (m1 & Hm1 & H2).
  apply openMessage_inr in Hm, Hm1. injection H1 as <-. injection H2 as <-.
  cbn [chat clarification] in *. unfold replaceMessage in *.
  cbn [messages withMessages withCurrentCitations] in *.
  rewrite list_lookup_insert_eq in Hm1 by (eapply lookup_lt_Some, Hm).
  injection Hm1 as <-. cbn [content msg_id role].
  unfold openMessage. rewrite Hm. cbn [mbind thrown_bind].
  rewrite list_insert_insert_eq. reflexivity.
Qed.
End EventSequences.

Lemma held_identity_skips_creation_witness :
  @submit sample_runtime "u1" "a1" (CreateRejected ThrownValue)
    (AskResponse 200 None) typed
  = @submit sample_runtime "u1" "a1"
      (CreateResponse 200 (inr (JObj [("conversation_id", JStr "c-2")])))
      (AskResponse 200 None) typed.
Proof.
  apply (@held_identity_skips_creation sample_runtime "u1" "a1"
           (CreateRejected ThrownValue)
           (CreateResponse 200 (inr (JObj [("conversation_id", JStr "c-2")])))
           (AskResponse 200 None) typed (JStr "c-1")); reflexivity.
Defined.

Lemma unknown_events_are_ignored_witness :
  let ts := mkTurn (@openTurn sample_runtime "u1" "a1" typed) false in
  let evs := [("ping", payload_empty); ("delta", payload_hi); ("done", "null")] in
  run_events (@dispatch sample_runtime 1) [("delta", payload_hi)] ts
  = run_events (@dispatch sample_runtime 1) evs ts.
Proof.
  intros ts evs.
  apply (@unknown_events_are_ignored sample_runtime 1 evs ts).
  repeat constructor; cbn [fst snd]; intros _; eexists; reflexivity.
Defined.

Lemma later_citations_replace_earlier_witness :
  let ts := mkTurn (@openTurn sample_runtime "u1" "a1" typed) false in
  let ts1 := completed (run_events (@dispatch sample_runtime 1)
                          [("citations", payload_citations)] ts) in
  let ts2 := completed (run_events (@dispatch sample_runtime 1)
                          [("citations", payload_empty)] ts1) in
  @dispatch sample_runtime 1 "citations" payload_empty ts = inr ts2.
Proof.
  intros ts ts1 ts2.
  apply (@later_citations_replace_earlier sample_runtime 1 payload_citations
           payload_empty ts ts1 ts2); reflexivity.
Defined.

(* ================================================================== *)
(** ** The conversation identity *)

Section Identity.
Context `{JsRuntime}.

Lemma chat_state_eta (s : ChatState) :
  mkChatState (messages s) (input s) (isLoading s) (error s) (currentCitations s)
    (selectedCitation s) (conversationId s) (hasWindow s) (stored s) = s.
Proof. now destruct s. Qed.

(** X11: restore is idempotent: restoring again with the same answer of
    the server (a page, 404, a failure, or a body on which the mapping
    throws) leaves the session as the first restore left it. *)
Theorem restore_is_idempotent (h : HistoryOutcome) (s : ChatState) :
  restoreConversationMessages h (restoreConversationMessages h s)
  = restoreConversationMessages h s.
Proof.
  destruct s as [ms inp ld err cur sel cid win slot].
  unfold restoreConversationMessages at 2 3. cbn [hasWindow stored].
  destruct win; [| reflexivity]. cbn [negb].
  destruct slot as [saved|]; [| reflexivity].
  destruct (nonempty saved) eqn:Hsaved; cbn [negb];
    [| unfold restoreConversationMessages; cbn; now rewrite Hsaved].
  destruct h as [t|status json|status payload thrown].
  { unfold restoreConversationMessages. cbn. now rewrite Hsaved. }
  - destruct (status =? 404)%Z eqn:H404.
    { reflexivity. }
    destruct (status_ok status) eqn:Hok; cbn [negb].
    2:{ unfold restoreConversationMessages. cbn. now rewrite Hsaved, H404, Hok. }
    destruct json as [t|payload].
    { unfold restoreConversationMessages. cbn. now rewrite Hsaved, H404, Hok. }
    cbn [messages withMessages setConversationId withConversation].
    set (page := map toMessage (list_messages payload)).
    unfold restoreConversationMessages, persistConversationId.
    destruct (List.find citedAssistant (rev page)) as [m|] eqn:Hfind;
      [destruct (citations m) as [cs|] eqn:Hcs |];
      cbn; destruct (nonempty (list_conversation_id payload)) eqn:Hid; cbn;
      rewrite ?Hid, ?H404, ?Hok; cbn; fold page; rewrite ?Hfind, ?Hcs; reflexivity.
  - destruct (status =? 404)%Z eqn:H404.
    { reflexivity. }
    destruct (status_ok status) eqn:Hok; cbn [negb].
    2:{ unfold restoreConversationMessages. cbn. now rewrite Hsaved, H404, Hok. }
    destruct (getProp payload "conversation_id") as [t|id] eqn:Hid.
    { unfold restoreConversationMessages. cbn. now rewrite Hsaved, H404, Hok, Hid. }
    unfold restoreConversationMessages, setConversationId, persistConversationId.
    cbn. destruct (truthy id) eqn:Htruthy; cbn; [| reflexivity].
    destruct (nonempty (asString id)) eqn:Hstr; cbn; [| reflexivity].
    rewrite H404, Hok, Hid. cbn. now rewrite Htruthy.
Qed.

(** X12: starting a new conversation empties the timeline and the
    citation state and drops the identity held.  When the creation request
    answers a success status with a body whose conversation_id is truthy,
    that identity is held and persisted and no error is shown.  In every
    other case (rejected request, non-success status, unreadable body,
    conversation_id unreadable or falsy) the session is left without
    identity, in memory and persisted, with the error message of that
    failure: the old identity is not restored. *)
Theorem new_conversation_replaces_identity (c : CreateOutcome) (s : ChatState) :
  let s' := startNewConversation c s in
  (messages s' = [] /\ currentCitations s' = [] /\ selectedCitation s' = None) /\
  (forall status payload cid,
     c = CreateResponse status (inr payload) -> status_ok status = true ->
     getProp payload "conversation_id" = inr cid -> truthy cid = true ->
     error s' = None /\ conversationId s' = Some cid /\
     (hasWindow s = true -> stored s' = Some (asString cid))) /\
  (forall t, c = CreateRejected t ->
     leftWithoutIdentity s s' (messageOf "创建新对话失败" t)) /\
  (forall status json,
     c = CreateResponse status json -> status_ok status = false ->
     leftWithoutIdentity s s' ("创建会话失败: " +:+ string_of_status status)) /\
  (forall status t,
     c = CreateResponse status (inl t) -> status_ok status = true ->
     leftWithoutIdentity s s' (messageOf "创建新对话失败" t)) /\
  (forall status payload t,
     c = CreateResponse status (inr payload) -> status_ok status = true ->
     getProp payload "conversation_id" = inl t ->
     leftWithoutIdentity s s' (messageOf "创建新对话失败" t)) /\
  (forall status payload cid,
     c = CreateResponse status (inr payload) -> status_ok status = true ->
     getProp payload "conversation_id" = inr cid -> truthy cid = false ->
     leftWithoutIdentity s s' "创建会话失败: 响应缺少 conversation_id").
Proof.
  intros s'. subst s'.
  assert (Hfail : forall t,
    createConversation c (setConversationId None (clear s))
    = Abrupt t (setConversationId None (clear s)) ->
    leftWithoutIdentity s (startNewConversation c s)
      (messageOf "创建新对话失败" t)).
  { intros t Hc. unfold startNewConversation. rewrite Hc.
    unfold leftWithoutIdentity, setConversationId, persistConversationId.
    cbn. split; [reflexivity |]. split; [reflexivity |]. now intros ->. }
  split; [| split; [| split; [| split; [| split; [| split]]]]].
  - unfold startNewConversation.
    pose proof (createConversation_same c (setConversationId None (clear s)))
      as (Hms & Hcur & _ & _ & _ & Hsel & _).
    destruct (createConversation c _) as [s'|t s']; cbn [completed] in *;
      cbn; rewrite Hms, Hcur, Hsel; auto.
  - intros status payload cid -> Hok Hcid Htruthy.
    unfold startNewConversation, createConversation.
    rewrite Hok, Hcid, Htruthy. cbn.
    split; [reflexivity |]. split; [reflexivity |].
    unfold persistConversationId. cbn. intros ->. cbn. now rewrite Htruthy.
  - intros t ->. now apply Hfail.
  - intros status json -> Hok.
    apply (Hfail (ThrownError ("创建会话失败: " +:+ string_of_status status))).
    unfold createConversation. now rewrite Hok.
  - intros status t -> Hok. apply Hfail.
    unfold createConversation. now rewrite Hok.
  - intros status payload t -> Hok Hcid. apply Hfail.
    unfold createConversation. now rewrite Hok, Hcid.
  - intros status payload cid -> Hok Hcid Htruthy.
    apply (Hfail (ThrownError "创建会话失败: 响应缺少 conversation_id")).
    unfold createConversation. now rewrite Hok, Hcid, Htruthy.
Qed.

(** Every operation writes the identity, in memory and persisted, through
    [setConversationId] only: a property of the state that depends on the
    identity alone and that [setConversationId] preserves is preserved by
    every operation. *)
Section IdentityInvariant.
Variable P : ChatState -> Prop.
Hypothesis P_identity : forall s s',
  conversationId s' = conversationId s -> stored s' = stored s ->
  hasWindow s' = hasWindow s -> P s -> P s'.
Hypothesis P_set : forall id s, P s -> P (setConversationId id s).

Lemma createConversation_inv (c : CreateOutcome) (s : ChatState) :
  P s -> P (completed (createConversation c s)).
Proof.
  intros Hs. unfold createConversation.
  destruct c as [t|status [t|payload]]; cbn [completed]; try exact Hs.
  - now destruct (negb (status_ok status)).
  - destruct (negb (status_ok status)); [exact Hs |].
    destruct (getProp payload "conversation_id") as [t|cid]; [exact Hs |].
    destruct (negb (truthy cid)); cbn [completed]; [exact Hs | now apply P_set].
Qed.

Lemma ensureConversation_inv (c : CreateOutcome) (s : ChatState) :
  P s -> P (completed (ensureConversation c s)).
Proof.
  intros Hs. unfold ensureConversation.
  destruct (conversationId s) as [v|]; [destruct (truthy v); [exact Hs |] |];
    now apply createConversation_inv.
Qed.

Lemma dispatch_inv (i : nat) (ev payload : string) (ts ts' : TurnState) :
  P (chat ts) -> dispatch i ev payload ts = inr ts' -> P (chat ts').
Proof.
  intros Hs Hd. unfold dispatch in Hd. apply bind_inr in Hd as (data & _ & Hd).
  destruct (String.eqb ev "meta").
  { apply bind_inr in Hd as (cid & _ & Hd). apply bind_inr in Hd as (nc & _ & Hd).
    injection Hd as <-. cbn [chat]. destruct (truthy cid); [now apply P_set | exact Hs]. }
  destruct (String.eqb ev "delta").
  { apply bind_inr in Hd as (cm & _ & Hd). apply bind_inr in Hd as (f & _ & Hd).
    injection Hd as <-. eapply P_identity; [| | | exact Hs]; reflexivity. }
  destruct (String.eqb ev "citations").
  { apply bind_inr in Hd as (cm & _ & Hd).
    injection Hd as <-. eapply P_identity; [| | | exact Hs]; reflexivity. }
  now injection Hd as <-.
Qed.

Lemma run_events_inv (i : nat) (evs : list (string * string)) (ts : TurnState) :
  P (chat ts) -> P (chat (completed (run_events (dispatch i) evs ts))).
Proof.
  revert ts. induction evs as [|[ev payload] evs IH]; intros ts Hs; [exact Hs |].
  cbn [run_events]. destruct (dispatch i ev payload ts) as [t|ts1] eqn:Hd; [exact Hs |].
  eapply IH, dispatch_inv; eassumption.
Qed.

Lemma submit_try_inv (i : nat) (c : CreateOutcome) (a : AskOutcome) (s : ChatState) :
  P s -> P (chat (completed (submit_try i c a s))).
Proof.
  intros Hs. unfold submit_try.
  pose proof (ensureConversation_inv c s Hs) as Hs1.
  destruct (ensureConversation c s) as [s1|t s1]; cbn [completed] in Hs1; [| exact Hs1].
  destruct a as [t|status [r|]]; cbn [completed chat]; try exact Hs1.
  - destruct (negb (status_ok status)); cbn [completed chat]; [exact Hs1 |].
    rewrite completed_read_all. now apply run_events_inv.
  - destruct (negb (status_ok status)); exact Hs1.
Qed.

Lemma submit_inv (id1 id2 : string) (c : CreateOutcome) (a : AskOutcome)
    (s : ChatState) :
  P s -> P (submit id1 id2 c a s).
Proof.
  intros Hs. unfold submit.
  destruct (negb (nonempty (String_trim (input s))) || isLoading s); [exact Hs |].
  match goal with
  | |- P (withLoading false (match submit_try ?i c a ?s0 with _ => _ end)) =>
      assert (H0 : P s0) by (eapply P_identity; [| | | exact Hs]; reflexivity);
      pose proof (submit_try_inv i c a s0 H0) as Htry;
      destruct (submit_try i c a s0) as [ts|t ts]; cbn [completed] in Htry
  end; (eapply P_identity; [| | | exact Htry]; reflexivity).
Qed.

Lemma restore_inv (h : HistoryOutcome) (s : ChatState) :
  P s -> P (restoreConversationMessages h s).
Proof.
  intros Hs. unfold restoreConversationMessages.
  destruct (negb (hasWindow s)); [exact Hs |].
  destruct (stored s) as [saved|]; [| exact Hs].
  destruct (negb (nonempty saved)); [exact Hs |].
  destruct h as [t|status json|status payload thrown];
    [eapply P_identity; [| | | exact Hs]; reflexivity | |].
  2:{ destruct (status =? 404)%Z; [now apply P_set |].
      destruct (negb (status_ok status));
        [eapply P_identity; [| | | exact Hs]; reflexivity |].
      destruct (getProp payload "conversation_id") as [t|id];
        [eapply P_identity; [| | | exact Hs]; reflexivity |].
      eapply P_identity; [| | | apply (P_set (Some id) s Hs)]; reflexivity. }
  destruct (status =? 404)%Z; [now apply P_set |].
  destruct (negb (status_ok status));
    [eapply P_identity; [| | | exact Hs]; reflexivity |].
  destruct json as [t|payload];
    [eapply P_identity; [| | | exact Hs]; reflexivity |].
  cbn [messages withMessages].
  assert (H1 : P (setConversationId (Some (JStr (list_conversation_id payload))) s))
    by now apply P_set.
  destruct (List.find citedAssistant _) as [m|];
    [destruct (citations m) |];
    (eapply P_identity; [| | | exact H1]; reflexivity).
Qed.

Lemma perform_inv (op : Operation) (s : ChatState) : P s -> P (perform op s).
Proof.
  intros Hs. destruct op as [id1 id2 c a | h | | c | n | m]; cbn [perform].
  - now apply submit_inv.
  - now apply restore_inv.
  - eapply P_identity; [| | | exact Hs]; reflexivity.
  - unfold startNewConversation.
    assert (H0 : P (setConversationId None (clear s))).
    { apply P_set. eapply P_identity; [| | | exact Hs]; reflexivity. }
    pose proof (createConversation_inv c _ H0) as H1.
    destruct (createConversation c _) as [s'|t s']; cbn [completed] in H1;
      [exact H1 | eapply P_identity; [| | | exact H1]; reflexivity].
  - unfold handleCitationClick.
    destruct (findCitation n (currentCitations s)) as [t|[c|]]; try exact Hs.
    destruct (truthy c); [| exact Hs].
    eapply P_identity; [| | | exact Hs]; reflexivity.
  - unfold handleMessageClick.
    destruct (citations m) as [[|c cs]|];
      (eapply P_identity; [| | | exact Hs]; reflexivity).
Qed.
End IdentityInvariant.

(** X13: in a browser, an identity held in memory is always the one
    persisted: this holds when the composable is set up, whatever the
    storage holds, and every operation of the session preserves it. *)
Theorem identity_stays_mirrored (win : bool) (slot : option string)
    (op : Operation) (s : ChatState) :
  identityMirrored (initialState win slot) /\
  (identityMirrored s -> identityMirrored (perform op s)).
Proof.
  split; [intros _ v Hv; discriminate |].
  apply perform_inv.
  - unfold identityMirrored. intros s1 s2 -> -> ->. exact id.
  - intros id s1 _. unfold identityMirrored, setConversationId, persistConversationId.
    cbn. intros -> v -> Hv. cbn. now rewrite Hv.
Qed.

(** X14: outside a browser (no [window]) restore does nothing and no
    operation writes the persisted identity; no operation changes whether
    a window exists. *)
Theorem no_window_no_storage (h : HistoryOutcome) (op : Operation)
    (s : ChatState) :
  hasWindow (perform op s) = hasWindow s /\
  (hasWindow s = false ->
   stored (perform op s) = stored s /\ restoreConversationMessages h s = s).
Proof.
  assert (Hinv : hasWindow (perform op s) = hasWindow s /\
                 (hasWindow s = false -> stored (perform op s) = stored s)).
  { apply (perform_inv (fun s' => hasWindow s' = hasWindow s /\
                          (hasWindow s = false -> stored s' = stored s))).
    - intros s1 s2 _ -> ->. exact id.
    - intros id s1 [Hw Hst]. unfold setConversationId, persistConversationId.
      cbn. split; [exact Hw |]. intros Hno. rewrite Hw, Hno. cbn. now apply Hst.
    - split; [reflexivity | reflexivity]. }
  destruct Hinv as [Hw Hst]. split; [exact Hw |]. intros Hno.
  split; [now apply Hst |]. unfold restoreConversationMessages. now rewrite Hno.
Qed.
End Identity.

Lemma identity_stays_mirrored_witness :
  @identityMirrored sample_runtime typed /\
  @identityMirrored sample_runtime
    (@perform sample_runtime
       (OpStartNewConversation
          (CreateResponse 200 (inr (JObj [("conversation_id", JStr "c-2")]))))
       typed) /\
  stored (@perform sample_runtime
            (OpStartNewConversation
               (CreateResponse 200 (inr (JObj [("conversation_id", JStr "c-2")]))))
            typed) = Some "c-2".
Proof.
  assert (Htyped : @identityMirrored sample_runtime typed).
  { intros _ v Hv _. injection Hv as <-. reflexivity. }
  split; [exact Htyped |]. split; [| reflexivity].
  destruct (@identity_stays_mirrored sample_runtime true None
              (OpStartNewConversation
                 (CreateResponse 200 (inr (JObj [("conversation_id", JStr "c-2")]))))
              typed) as [_ Hstep].
  apply Hstep, Htyped.
Defined.

(* ================================================================== *)
(** ** Selecting a citation by its marker *)

Section MarkerClick.
Context `{JsRuntime}.

Lemma findCitation_first (n : float) (before after : list Citation)
    (c : Citation) (v : jsval) :
  Forall (otherId n) before ->
  getProp c "id" = inr v -> strictEqNumber v n = true ->
  findCitation n (before ++ c :: after) = inr (Some c).
Proof.
  intros Hbefore Hc Hv. induction Hbefore as [|c0 before (v0 & Hc0 & Hv0) _ IH].
  - cbn [app findCitation]. rewrite Hc. cbn [mbind thrown_bind]. now rewrite Hv.
  - cbn [app findCitation]. rewrite Hc0. cbn [mbind thrown_bind]. now rewrite Hv0.
Qed.

Lemma findCitation_none (n : float) (cs : list Citation) :
  Forall (otherId n) cs -> findCitation n cs = inr None.
Proof.
  induction 1 as [|c0 cs (v0 & Hc0 & Hv0) _ IH]; [reflexivity |].
  cbn [findCitation]. rewrite Hc0. cbn [mbind thrown_bind]. now rewrite Hv0.
Qed.

(** A value whose [id] is a number is an object, hence truthy. *)
Lemma numbered_is_truthy (c : Citation) (v : jsval) (n : float) :
  getProp c "id" = inr v -> strictEqNumber v n = true -> truthy c = true.
Proof.
  unfold getProp. destruct c; intros Hc Hv; try discriminate;
    try (injection Hc as <-; discriminate). reflexivity.
Qed.

(** X15: a click on the marker numbered [k] selects the first of the
    current citations whose id is [k]; when no current citation has that
    id the session is left as it is; in every case at most the selected
    citation changes. *)
Theorem marker_click_selects_first_match (n : float) (s : ChatState) :
  (forall before c after v,
     currentCitations s = before ++ c :: after ->
     Forall (otherId n) before ->
     getProp c "id" = inr v -> strictEqNumber v n = true ->
     handleCitationClick n s = selectCitation c s) /\
  (Forall (otherId n) (currentCitations s) -> handleCitationClick n s = s) /\
  (exists sel, handleCitationClick n s = withSelected sel s).
Proof.
  unfold handleCitationClick. split; [| split].
  - intros before c after v Hcur Hbefore Hc Hv.
    rewrite Hcur, (findCitation_first _ _ _ _ _ Hbefore Hc Hv).
    now rewrite (numbered_is_truthy _ _ _ Hc Hv).
  - intros Hnone. now rewrite findCitation_none.
  - assert (Hid : s = withSelected (selectedCitation s) s) by (now destruct s).
    destruct (findCitation n (currentCitations s)) as [t|[c|]]; eauto.
    destruct (truthy c); eauto.
Qed.
End MarkerClick.

(** The second citation is selected by its number; an unknown number and
    a list holding [null] leave the selection alone. *)
Example marker_click_cases :
  let s := @handleMessageClick cited_message fresh_typed in
  selectedCitation s = Some citation1 /\
  selectedCitation (@handleCitationClick sample_runtime 2%float s) = Some citation2 /\
  @handleCitationClick sample_runtime 7%float s = s /\
  @handleCitationClick sample_runtime 2%float
    (withCurrentCitations [JNull; citation2] s)
  = withCurrentCitations [JNull; citation2] s.
Proof. vm_compute. repeat split; reflexivity. Qed.

(* ================================================================== *)
(** ** Clarification turns, whole frames, and the identity after a turn *)

Section TurnConsequences.
Context `{JsRuntime}.

Lemma dispatch_citations_suppressed (i : nat) (payload : string)
    (ts ts' : TurnState) :
  clarification ts = true ->
  dispatch i "citations" payload ts = inr ts' ->
  currentCitations (chat ts') = [] /\
  exists m, messages (chat ts') !! i = Some m /\ citations m = Some [].
Proof.
  unfold dispatch. intros Hclar Hd.
  apply bind_inr in Hd as (data & _ & Hd).
  cbn [String.eqb Ascii.eqb Bool.eqb andb] in Hd.
  apply bind_inr in Hd as (cm & Hcm & Hd). apply openMessage_inr in Hcm.
  injection Hd as <-. rewrite Hclar, orb_true_r. cbn [orb chat].
  unfold replaceMessage. cbn [messages withMessages withCurrentCitations currentCitations].
  split; [reflexivity |]. eexists.
  split; [apply list_lookup_insert_eq; eapply lookup_lt_Some, Hcm | reflexivity].
Qed.

(** An event other than meta and citations keeps the citations in place. *)
Lemma dispatch_keeps_no_citations (i : nat) (ev payload : string)
    (ts ts' : TurnState) :
  clarification ts = true ->
  ev <> "meta" ->
  dispatch i ev payload ts = inr ts' ->
  currentCitations (chat ts) = [] /\
  (exists m, messages (chat ts) !! i = Some m /\ citations m = Some []) ->
  currentCitations (chat ts') = [] /\
  exists m, messages (chat ts') !! i = Some m /\ citations m = Some [].
Proof.
  intros Hclar Hev Hd (Hcur & m & Hm & Hc).
  destruct (String.eqb_spec ev "citations") as [->|Hne];
    [exact (dispatch_citations_suppressed i payload ts ts' Hclar Hd) |].
  unfold dispatch in Hd. apply bind_inr in Hd as (data & _ & Hd).
  destruct (String.eqb_spec ev "meta") as [->|_]; [contradiction |].
  destruct (String.eqb_spec ev "delta") as [->|_].
  { apply bind_inr in Hd as (cm & Hcm & Hd). apply bind_inr in Hd as (f & _ & Hd).
    apply openMessage_inr in Hcm. rewrite Hm in Hcm. injection Hcm as <-.
    injection Hd as <-. cbn [chat]. unfold replaceMessage.
    cbn [messages withMessages currentCitations]. split; [exact Hcur |].
    eexists. split; [apply list_lookup_insert_eq; eapply lookup_lt_Some, Hm | exact Hc]. }
  destruct (String.eqb_spec ev "citations") as [->|_]; [contradiction |].
  injection Hd as <-. eauto.
Qed.

Lemma run_events_keep_no_citations (i : nat) (evs : list (string * string))
    (ts ts' : TurnState) :
  clarification ts = true ->
  Forall (fun e => fst e <> "meta") evs ->
  run_events (dispatch i) evs ts = Normal ts' ->
  currentCitations (chat ts) = [] /\
  (exists m, messages (chat ts) !! i = Some m /\ citations m = Some []) ->
  currentCitations (chat ts') = [] /\
  exists m, messages (chat ts') !! i = Some m /\ citations m = Some [].
Proof.
  intros Hclar Hevs. revert ts Hclar.
  induction Hevs as [|[ev payload] evs Hev _ IH]; intros ts Hclar Hrun Hnone.
  - now injection Hrun as <-.
  - cbn [run_events] in Hrun.
    destruct (dispatch i ev payload ts) as [t|ts1] eqn:Hd; [discriminate |].
    apply (IH ts1); [| exact Hrun |].
    + now rewrite (dispatch_other_flag _ _ _ _ _ Hev Hd).
    + eapply dispatch_keeps_no_citations; eassumption.
Qed.

(** X16: while the clarification flag of the turn is true and no meta
    event intervenes, a citations event attaches nothing: after a run of
    events that contains one, the current citations and the citation list
    of the open assistant message are empty, whatever the payloads were. *)
Theorem clarification_suppresses_citations (i : nat)
    (evs : list (string * string)) (ts ts' : TurnState) :
  clarification ts = true ->
  Forall (fun e => fst e <> "meta") evs ->
  In "citations" (map fst evs) ->
  run_events (dispatch i) evs ts = Normal ts' ->
  currentCitations (chat ts') = [] /\
  exists m, messages (chat ts') !! i = Some m /\ citations m = Some [].
Proof.
  intros Hclar Hevs. revert ts Hclar.
  induction Hevs as [|[ev payload] evs Hev Hrest IH]; intros ts Hclar Hin Hrun.
  - contradiction.
  - cbn [run_events] in Hrun. cbn [fst] in Hev.
    destruct (dispatch i ev payload ts) as [t|ts1] eqn:Hd; [discriminate |].
    assert (Hclar1 : clarification ts1 = true)
      by now rewrite (dispatch_other_flag _ _ _ _ _ Hev Hd).
    destruct Hin as [Hhere | Hlater].
    + cbn [fst] in Hhere. subst ev.
      eapply run_events_keep_no_citations; [exact Hclar1 | exact Hrest | exact Hrun |].
      exact (dispatch_citations_suppressed i payload ts ts1 Hclar Hd).
    + now apply (IH ts1).
Qed.

(** X17: rendering and decoding are inverse on whole frames: however a
    sequence of well-formed frames is grouped into chunks, the loop decodes
    exactly these frames, in order, each once. *)
Theorem frames_round_trip (groups : list (list (string * string))) :
  Forall (Forall (fun f => frame_ok f = true)) groups ->
  decoded_events (map render_frames groups) = concat groups /\
  decoded_events [render_frames (concat groups)] = concat groups.
Proof.
  intros Hg. split; [now apply decoded_events_frames |].
  change [render_frames (concat groups)] with (map render_frames [concat groups]).
  rewrite decoded_events_frames.
  - cbn [concat]. now rewrite app_nil_r.
  - constructor; [now apply Forall_concat | constructor].
Qed.

Lemma createConversation_normal_truthy (c : CreateOutcome) (s s1 : ChatState) :
  createConversation c s = Normal s1 ->
  exists v, conversationId s1 = Some v /\ truthy v = true.
Proof.
  unfold createConversation.
  destruct c as [t|status [t|payload]]; try discriminate.
  - destruct (negb (status_ok status)); discriminate.
  - destruct (negb (status_ok status)); [discriminate |].
    destruct (getProp payload "conversation_id") as [t|cid]; [discriminate |].
    destruct (truthy cid) eqn:Hcid; [| discriminate]. cbn [negb].
    intros Hs. injection Hs as <-. eauto.
Qed.

Lemma dispatch_keeps_identity_truthy (i : nat) (ev payload : string)
    (ts ts' : TurnState) :
  (exists v, conversationId (chat ts) = Some v /\ truthy v = true) ->
  dispatch i ev payload ts = inr ts' ->
  exists v, conversationId (chat ts') = Some v /\ truthy v = true.
Proof.
  intros Hid Hd. unfold dispatch in Hd. apply bind_inr in Hd as (data & _ & Hd).
  destruct (String.eqb ev "meta").
  { apply bind_inr in Hd as (cid & _ & Hd). apply bind_inr in Hd as (nc & _ & Hd).
    injection Hd as <-. cbn [chat]. destruct (truthy cid) eqn:Hcid; [| exact Hid].
    exists cid. split; [reflexivity | exact Hcid]. }
  destruct (String.eqb ev "delta").
  { apply bind_inr in Hd as (cm & _ & Hd). apply bind_inr in Hd as (f & _ & Hd).
    now injection Hd as <-. }
  destruct (String.eqb ev "citations").
  { apply bind_inr in Hd as (cm & _ & Hd). now injection Hd as <-. }
  now injection Hd as <-.
Qed.

Lemma run_events_keep_identity_truthy (i : nat) (evs : list (string * string))
    (ts ts' : TurnState) :
  (exists v, conversationId (chat ts) = Some v /\ truthy v = true) ->
  run_events (dispatch i) evs ts = Normal ts' ->
  exists v, conversationId (chat ts') = Some v /\ truthy v = true.
Proof.
  revert ts. induction evs as [|[ev payload] evs IH]; intros ts Hid Hrun.
  - now injection Hrun as <-.
  - cbn [run_events] in Hrun.
    destruct (dispatch i ev payload ts) as [t|ts1] eqn:Hd; [discriminate |].
    eapply IH; [eapply dispatch_keeps_identity_truthy; eassumption | exact Hrun].
Qed.

(** X18: a started turn that ends without error leaves the session with
    a conversation identity: the one held, the one just created, or the
    one a meta event carried. *)
Theorem successful_turn_holds_identity (id1 id2 : string) (c : CreateOutcome)
    (a : AskOutcome) (s : ChatState) :
  nonempty (String_trim (input s)) = true -> isLoading s = false ->
  error (submit id1 id2 c a s) = None ->
  exists v, conversationId (submit id1 id2 c a s) = Some v /\ truthy v = true.
Proof.
  intros Hq Hl. rewrite submit_unfold by assumption.
  destruct (submit_try _ _ _ _) as [ts|t ts] eqn:Htry; [| discriminate].
  intros _. cbn [conversationId withLoading].
  apply submit_try_normal in Htry as (status & r & s1 & _ & _ & _ & Hens & Hrun).
  eapply run_events_keep_identity_truthy; [| exact Hrun]. cbn [chat].
  unfold ensureConversation in Hens.
  destruct (conversationId (openTurn id1 id2 s)) as [v|] eqn:Hc.
  - destruct (truthy v) eqn:Hv.
    + injection Hens as <-. eauto.
    + eapply createConversation_normal_truthy, Hens.
  - eapply createConversation_normal_truthy, Hens.
Qed.
End TurnConsequences.

Lemma clarification_suppresses_citations_witness :
  let ts0 := mkTurn (@openTurn sample_runtime "u1" "a1" typed) false in
  let ts := completed (run_events (@dispatch sample_runtime 1)
                         [("meta", payload_clarify)] ts0) in
  let evs := [("delta", payload_hi); ("citations", payload_citations)] in
  let ts' := completed (run_events (@dispatch sample_runtime 1) evs ts) in
  currentCitations (chat ts') = [] /\
  exists m, messages (chat ts') !! 1 = Some m /\ citations m = Some [].
Proof.
  intros ts0 ts evs ts'.
  apply (@clarification_suppresses_citations sample_runtime 1 evs ts ts').
  - reflexivity.
  - repeat constructor; cbn; discriminate.
  - right. left. reflexivity.
  - reflexivity.
Defined.

Lemma frames_round_trip_witness :
  let groups := [[("meta", payload_empty)]; [];
                 [("delta", payload_hi); ("citations", payload_citations)]] in
  decoded_events (map render_frames groups) = concat groups /\
  decoded_events [render_frames (concat groups)] = concat groups.
Proof.
  intros groups. apply (frames_round_trip groups). repeat constructor.
Defined.

Lemma successful_turn_holds_identity_witness :
  let c := CreateResponse 200 (inr (JObj [("conversation_id", JStr "c-2")])) in
  let a := AskResponse 200
             (Some (mkReader [render_frames [("delta", payload_hi)]] ReadDone)) in
  exists v, conversationId (@submit sample_runtime "u1" "a1" c a fresh_typed) = Some v /\
            truthy v = true.
Proof.
  intros c a.
  apply (@successful_turn_holds_identity sample_runtime "u1" "a1" c a fresh_typed);
    reflexivity.
Defined.
